(** * server.js: session authentication in front of the vehicle catalog

    A shallow embedding of [src/server.js] (an Express application).  The
    route handlers are state-passing functions over a [world] (the database
    handle and the ordered log of everything a request did: response calls,
    storage calls, console output).  [async]/[await] is flattened to
    sequential composition; [try]/[catch] is the error layer of the monad
    [M].  The packages the file [require]s (express, multer, mongodb,
    bcryptjs, jsonwebtoken) are external: they enter through the record
    [Platform].  Of jsonwebtoken the proofs use either the contract
    [JwtContract], or, where a property is one of the codec itself, the
    Credential Codec as the specification describes it ([Codec]). *)

From Stdlib Require Import Ascii String.
From stdpp Require Import base numbers option list strings pretty gmap.

Open Scope string_scope.
Open Scope Z_scope.
Open Scope list_scope.

(** ** JavaScript values *)

(** The values a property lookup in this file can yield. *)
Inductive jsval :=
| JUndefined
| JString (s : string)
| JFunction (name : string)
| JObject (name : string).

(** [!s] for a (defined) string: only the empty string is falsy. *)
Definition truthy_string (s : string) : bool := negb (String.eqb s "").

(** [!v] for a possibly undefined string such as [req.cookies.token] or
    [process.env.JWT_SECRET]. *)
Definition falsy (v : option string) : bool :=
  match v with
  | None => true
  | Some s => negb (truthy_string s)
  end.

Definition truthy (v : jsval) : bool :=
  match v with
  | JUndefined => false
  | JString s => truthy_string s
  | JFunction _ | JObject _ => true
  end.

(** A value of a parsed request body, and whatever the routes copy from
    it: a string, or any other JSON value (number, boolean, null, array,
    object), which the routes never look into and which is kept as its
    JSON text. *)
Inductive jsonval :=
| JsonString (s : string)
| JsonOther (text : string).

Global Instance jsonval_eq_dec : EqDecision jsonval.
Proof. solve_decision. Defined.

(** What a call can do besides returning: throw (or reject, under [await]). *)
Inductive result (A : Type) :=
| Ok (a : A)
| Throw (err : string).
Arguments Ok {A} a.
Arguments Throw {A} err.

(** ** Data model *)

(** A document of the [users] collection. *)
Record User := {
  _id : string;
  name : option jsonval;
  mobile : option jsonval;
  email : option jsonval;
  password : option string
}.

(** [newUser] of the signup route, before the driver has given it an [_id]. *)
Record NewUser := {
  nu_name : option jsonval;
  nu_mobile : option jsonval;
  nu_email : option jsonval;
  nu_password : string
}.

(** A document of the [vehicles] collection. *)
Record Vehicle := {
  v_name : option jsonval;
  vehicleType : option jsonval;
  vehicleNumber : option jsonval;
  vehicleImage : option string;
  ownerId : string
}.

(** [payload] as built by the login and signup routes. *)
Record Payload := {
  p_id : string;
  p_email : option jsonval
}.

(** The decoded token that [jwt.verify] hands to its callback: the payload
    together with the registered claims [iat] and [exp]. *)
Record Claims := {
  id : string;
  c_email : option jsonval;
  iat : Z;
  exp : Z
}.

(** The RequestIdentity of the specification is the {id, email} part of the
    object stored in [req.user]. *)
Definition identity (c : Claims) : string * option jsonval := (id c, c_email c).

Record SignOptions := { expiresIn : string }.

(** [process.env] as far as the file reads it. *)
Record Env := {
  PORT : option string;
  MONGO_URL : option string;
  JWT_SECRET : option string
}.

(** The request object as the handlers read it.  Cookie values are the
    strings cookie-parser stores; [body] holds the own properties of the
    object that the body parsers of lines 21-22 leave in [req.body] (with
    the parsers of Express 4 an object also when there was nothing to
    parse), whose values are strings or other JSON values; [file] is [req.file.filename], set by the upload
    middleware; [user] is [undefined] on arrival. *)
Record request := {
  cookies : gmap string string;
  body : gmap string jsonval;
  params : gmap string string;
  file : option string;
  user : option Claims
}.

(** [req.user = user] *)
Definition set_user (req : request) (u : option Claims) : request :=
  {| cookies := cookies req; body := body req; params := params req;
     file := file req; user := u |}.

(** Everything a request does that can be seen from outside the handler, in
    program order.  [ResError err] is the answer of Express's default error
    handler when a middleware passes [err] on: status 500, with the error's
    stack in the body outside production. *)
Inductive event :=
| ResRedirect (url : string)
| ResCookie (name value : string) (httpOnly : bool)
| ResClearCookie (name : string)
| ResStatus (code : Z)
| ResSend (text : string)
| ResSendFile (file : string)
| ResRender (view : string) (data : list Vehicle)
| ResError (err : string)
| ConsoleLog (msg : string) (arg : option jsonval)
| ConsoleError (msg : string) (err : string)
| DbFindOneUser (email : option jsonval)
| DbInsertUser (doc : NewUser)
| DbInsertVehicle (doc : Vehicle)
| DbFindVehicles (vehicleType : jsval).

(** ** The external packages *)

(** How [app.listen(port, callback)] can end: the server is bound and the
    callback runs; the call throws (a port out of range); or the server
    emits an [error] event later (a port in use), which nothing handles. *)
Inductive listen_outcome :=
| Bound
| ListenThrows (err : string)
| ListenError (err : string).

Record Platform := {
  DB : Type;
  Client : Type;
  (** [new MongoClient(process.env.MONGO_URL)] *)
  MongoClient_new : option string -> result Client;
  (** [client.connect()] followed by [client.db(dbName)] *)
  client_connect : Client -> string -> result DB;
  (** [app.listen(port, callback)] *)
  app_listen : string -> listen_outcome;
  (** [upload.single(fieldname)] of multer on a request: the text fields it
      puts in [req.body] and the stored file's name it puts in
      [req.file], or the error it passes on. *)
  multer_single : string -> request -> result (gmap string jsonval * option string);
  (** [db.collection('users').findOne({ email })] *)
  users_findOne : DB -> option jsonval -> result (option User);
  (** [db.collection('users').insertOne(newUser)]: the driver assigns
      [newUser._id]. *)
  users_insertOne : DB -> NewUser -> result (DB * string);
  (** [db.collection("vehicles").insertOne(vehicleData)] *)
  vehicles_insertOne : DB -> Vehicle -> result (DB * unit);
  (** [db.collection('vehicles').find({ vehicleType }).toArray()] *)
  vehicles_find : DB -> jsval -> result (list Vehicle);
  bcrypt_compare : option jsonval -> option string -> result bool;
  bcrypt_hash : option jsonval -> Z -> result string;
  (** [jwt.sign(payload, secret, options)] at clock reading [now]
      (milliseconds, [Date.now()]). *)
  jwt_sign : Payload -> option string -> SignOptions -> Z -> result string;
  (** [jwt.verify(token, secret, callback)] at clock reading [now]: the
      callback is invoked once, with the error or with the decoded token. *)
  jwt_verify : string -> option string -> Z -> result Claims
}.

Record world (P : Platform) := {
  db : DB P;
  log : list event
}.
Arguments db {P} w.
Arguments log {P} w.

(** ** The handler monad: state passing with exceptions *)

Module Handler.
Section Monad.
Context {P : Platform}.

Definition M (A : Type) : Type := world P -> result A * world P.

Definition ret {A} (a : A) : M A := fun w => (Ok a, w).

Definition bind {A B} (m : M A) (k : A -> M B) : M B :=
  fun w =>
    match m w with
    | (Ok a, w') => k a w'
    | (Throw e, w') => (Throw e, w')
    end.

(** [try { body } catch (err) { handler }] *)
Definition try_catch {A} (body : M A) (handler : string -> M A) : M A :=
  fun w =>
    match body w with
    | (Ok a, w') => (Ok a, w')
    | (Throw e, w') => handler e w'
    end.

Definition emit (ev : event) : M unit :=
  fun w => (Ok tt, {| db := db w; log := log w ++ [ev] |}).

(** A call into an external package that reads the database. *)
Definition call {A} (ev : option event) (f : DB P -> result A) : M A :=
  fun w =>
    let w' := {| db := db w; log := log w ++ from_option (fun e => [e]) [] ev |} in
    (f (db w), w').

(** A call into an external package that updates the database. *)
Definition update {A} (ev : event) (f : DB P -> result (DB P * A)) : M A :=
  fun w =>
    match f (db w) with
    | Ok (d, a) => (Ok a, {| db := d; log := log w ++ [ev] |})
    | Throw e => (Throw e, {| db := db w; log := log w ++ [ev] |})
    end.

(** The world a handler leaves behind. *)
Definition run (m : M unit) (w : world P) : world P := snd (m w).
End Monad.
End Handler.
Import Handler.

Notation "'do' x <- m ; k" := (bind m (fun x => k))
  (at level 10, x name, m at level 100, k at level 200).
Notation "m ;; k" := (bind m (fun _ => k))
  (at level 100, k at level 200, right associativity).

(** ** The application *)

(** The options both issuing routes pass to [jwt.sign]. *)
Definition sign_options : SignOptions := {| expiresIn := "1h" |}.

Section App.
Variable P : Platform.
Variable env : Env.
(** [Date.now()] while the request is handled. *)
Variable now : Z.

Local Abbreviation H := (M (P:=P) unit).

Definition res_redirect (url : string) : H := emit (ResRedirect url).
Definition res_cookie (name value : string) (httpOnly : bool) : H :=
  emit (ResCookie name value httpOnly).
Definition res_clearCookie (name : string) : H := emit (ResClearCookie name).
Definition res_status (code : Z) : H := emit (ResStatus code).
Definition res_send (text : string) : H := emit (ResSend text).
Definition res_sendFile (file : string) : H := emit (ResSendFile file).
Definition res_render (view : string) (data : list Vehicle) : H :=
  emit (ResRender view data).
Definition console_log (msg : string) (arg : option jsonval) : H :=
  emit (ConsoleLog msg arg).
Definition console_error (msg err : string) : H :=
  emit (ConsoleError msg err).

(** [jwt.verify(token, process.env.JWT_SECRET, (err, user) => ...)] *)
Definition jwt_verify_cb (token : string)
    (callback : option string -> option Claims -> H) : H :=
  match jwt_verify P token (JWT_SECRET env) now with
  | Throw err => callback (Some err) None
  | Ok decoded => callback None (Some decoded)
  end.

(** Authentication middleware (server.js, lines 39-53). *)
Definition authenticateToken (req : request) (next : request -> H) : H :=
  let token := cookies req !! "token" in
  match token with
  | None => res_redirect "/login.html"
  | Some token =>
      if negb (truthy_string token) then res_redirect "/login.html"
      else
        jwt_verify_cb token (fun err user =>
          match err with
          | Some _ => res_redirect "/login.html"
          | None => next (set_user req user)
          end)
  end.

(** [jwt.sign(payload, process.env.JWT_SECRET, { expiresIn: '1h' })], the
    expression of lines 69 and 91. *)
Definition issue (payload : Payload) : result string :=
  jwt_sign P payload (JWT_SECRET env) sign_options now.

(** [app.post("/login", ...)] (lines 58-78).  The [||] of line 63
    short-circuits: [bcrypt.compare] runs only when a user was found. *)
Definition login (req : request) : H :=
  try_catch
    (let req_email := body req !! "email" in
     let req_password := body req !! "password" in
     do found <- call (Some (DbFindOneUser req_email)) (fun d => users_findOne P d req_email);
     match found with
     | None => res_redirect "/login.html?error=invalid"
     | Some u =>
         do same <- call None (fun _ => bcrypt_compare P req_password (password u));
         if negb same then res_redirect "/login.html?error=invalid"
         else
           let payload := {| p_id := _id u; p_email := email u |} in
           do token <- call None (fun _ => issue payload);
           (res_cookie "token" token true ;; res_redirect "/home")
     end)
    (fun err =>
       console_error "Error during login:" err ;;
       res_status 500 ;;
       res_send "An error occurred during the login process.").

(** [app.post("/signup", ...)] (lines 81-98). *)
Definition signup (req : request) : H :=
  try_catch
    (let req_name := body req !! "name" in
     let req_mobile := body req !! "mobile" in
     let req_email := body req !! "email" in
     let req_password := body req !! "password" in
     do hashedPassword <- call None (fun _ => bcrypt_hash P req_password 10);
     let newUser :=
       {| nu_name := req_name; nu_mobile := req_mobile; nu_email := req_email;
          nu_password := hashedPassword |} in
     do new_id <- update (DbInsertUser newUser) (fun d => users_insertOne P d newUser);
     (console_log "Record inserted for:" req_email ;;
      let payload := {| p_id := new_id; p_email := nu_email newUser |} in
      do token <- call None (fun _ => issue payload);
      (res_cookie "token" token true ;; res_redirect "/home")))
    (fun err =>
       console_error "Error inserting user record:" err ;;
       res_status 500 ;;
       res_send "Error inserting record.").

(** [app.get("/logout", ...)] (lines 101-103). *)
Definition logout (req : request) : H :=
  res_clearCookie "token" ;; res_redirect "/login.html".

(** [app.get('/home', authenticateToken, ...)] and ['/explore']. *)
Definition home (req : request) : H :=
  authenticateToken req (fun req => res_sendFile "public/home.html").

Definition explore (req : request) : H :=
  authenticateToken req (fun req => res_sendFile "public/explore.html").

(** The handler of [app.post("/registerVehicle", ...)] (lines 120-136); it
    runs behind the gate and the upload middleware.  Reading [req.user.id]
    of an undefined [req.user] throws inside the [try]. *)
Definition registerVehicle_handler (req : request) : H :=
  try_catch
    (do owner <- call None (fun _ =>
        match user req with
        | Some c => Ok c
        | None => Throw "TypeError: Cannot read properties of undefined (reading 'id')"
        end);
     let vehicleData :=
       {| v_name := body req !! "name";
          vehicleType := body req !! "vehicleType";
          vehicleNumber := body req !! "vehicleNumber";
          vehicleImage := file req;
          ownerId := id owner |} in
     do _ <- update (DbInsertVehicle vehicleData)
                    (fun d => vehicles_insertOne P d vehicleData);
     (console_log "Vehicle Registered by user:" (c_email owner) ;;
      res_redirect "/explore"))
    (fun err =>
       console_error "Error registering vehicle:" err ;;
       res_status 500 ;;
       res_send "Registration Failed.").

(** [upload.single(fieldname)] as a middleware: on success the request goes
    on with the parsed fields and the stored file; an error goes to
    Express's default error handler and the handler is not run. *)
Definition upload_single (field : string) (req : request) (next : request -> H) : H :=
  match multer_single P field req with
  | Ok (fields, stored) =>
      next {| cookies := cookies req; body := fields; params := params req;
              file := stored; user := user req |}
  | Throw err => emit (ResError err)
  end.

(** [app.post("/registerVehicle", authenticateToken,
    upload.single("vehicleImage"), ...)] *)
Definition registerVehicle (req : request) : H :=
  authenticateToken req (fun req =>
    upload_single "vehicleImage" req registerVehicle_handler).

(** The object literal of lines 139-143: its own properties. *)
Definition vehicleTypeMap : gmap string string :=
  list_to_map
    [ ("excavators", "Excavator"); ("bulldozers", "Bulldozer");
      ("mini-excavators", "Miniexcavator");
      ("backhoe-loaders", "Backhoe Loader"); ("loaders", "Loader");
      ("motor-graders", "Motor Grader");
      ("piling-rigs", "Piling Rig"); ("augers", "Auger"); ("tractors", "Tractor") ].

(** What every object literal inherits: the properties of
    [Object.prototype]. *)
Definition Object_prototype : gmap string jsval :=
  list_to_map
    [ ("constructor", JFunction "Object");
      ("__proto__", JObject "Object.prototype");
      ("hasOwnProperty", JFunction "hasOwnProperty");
      ("isPrototypeOf", JFunction "isPrototypeOf");
      ("propertyIsEnumerable", JFunction "propertyIsEnumerable");
      ("toLocaleString", JFunction "toLocaleString");
      ("toString", JFunction "toString");
      ("valueOf", JFunction "valueOf");
      ("__defineGetter__", JFunction "__defineGetter__");
      ("__defineSetter__", JFunction "__defineSetter__");
      ("__lookupGetter__", JFunction "__lookupGetter__");
      ("__lookupSetter__", JFunction "__lookupSetter__") ].

(** [obj[key]] for an object literal with string-valued own properties: own
    property first, then the prototype, else [undefined]. *)
Definition get_property (obj : gmap string string) (key : string) : jsval :=
  match obj !! key with
  | Some s => JString s
  | None => default JUndefined (Object_prototype !! key)
  end.

(** A value interpolated into a template string. *)
Definition text_of (v : jsval) : string :=
  match v with
  | JUndefined => "undefined"
  | JString s => s
  | JFunction name => "function " +:+ name +:+ "() { [native code] }"
  | JObject _ => "[object Object]"
  end.

(** The handler of [app.get("/vehicles/:type", ...)] behind the gate
    (lines 145-157).  Express only dispatches here with [req.params.type]
    bound to a path segment; an unbound parameter would be looked up as the
    key ["undefined"]. *)
Definition vehicles_handler (req : request) : H :=
  let vehicleType := get_property vehicleTypeMap (default "undefined" (params req !! "type")) in
  if negb (truthy vehicleType) then
    res_status 404 ;; res_send "Vehicle category not found."
  else
    try_catch
      (do vehicles <- call (Some (DbFindVehicles vehicleType))
                           (fun d => vehicles_find P d vehicleType);
       res_render "excavator" vehicles)
      (fun err =>
         console_error ("Error fetching " +:+ text_of vehicleType +:+ ":") err ;;
         res_status 500 ;;
         res_send "Failed to retrieve data.").

Definition vehicles (req : request) : H :=
  authenticateToken req vehicles_handler.

(** ** Startup (lines 13-16 and 161-175) *)

Definition dbName : string := "ganeshvuyala".

(** [process.env.PORT || 1337], as the text that [listen] receives. *)
Definition port : string :=
  match PORT env with
  | Some p => if truthy_string p then p else "1337"
  | None => "1337"
  end.

(** How the process stands after startup: accepting requests on a port
    with the handle [db] set; terminated by [process.exit]; or brought down
    by an exception or [error] event that nothing catches. *)
Inductive process :=
| Listening (on : string) (d : DB P) (out : list event)
| Exited (code : Z) (out : list event)
| Crashed (err : string) (out : list event).

(** [startServer()] (lines 161-173), with [client] the constant of
    line 16.  Both [client.connect()] and [app.listen] are inside the
    [try]. *)
Definition startServer (client : Client P) : process :=
  match client_connect P client dbName with
  | Throw err => Exited 1 [ ConsoleError "Failed to connect to MongoDB" err ]
  | Ok d =>
      let connected := ConsoleLog "Successfully connected to MongoDB. 💾" None in
      match app_listen P port with
      | Bound =>
          Listening port d
            [ connected;
              ConsoleLog ("Server is running on http://localhost:" +:+ port +:+ " 🚀")
                None ]
      | ListenThrows err =>
          Exited 1 [ connected; ConsoleError "Failed to connect to MongoDB" err ]
      | ListenError err => Crashed err [ connected ]
      end
  end.

(** Loading the file: the constructor of line 16, outside any [try], then
    the call of line 175. *)
Definition main : process :=
  match MongoClient_new P (MONGO_URL env) with
  | Throw err => Crashed err []
  | Ok client => startServer client
  end.

Definition accepting (p : process) : bool :=
  match p with
  | Listening _ _ _ => true
  | Exited _ _ | Crashed _ _ => false
  end.

End App.

Arguments Listening {P} on d out.
Arguments Exited {P} code out.
Arguments Crashed {P} err out.
Arguments accepting {P} p.

(** ** Upload storage (lines 28-36) *)

(** The [file] object multer hands to the storage callbacks, as far as they
    read it. *)
Record upload_file := {
  fieldname : string;
  originalname : string
}.

Section Upload.
(** [path.extname] of Node. *)
Variable extname : string -> string.
(** [Date.now()] when the name is chosen. *)
Variable now : Z.

(** [destination: function (req, file, cb) { cb(null, 'public/uploads/'); }] *)
Definition destination (req : request) (f : upload_file) : string :=
  "public/uploads/".

(** [file.fieldname + '-' + Date.now() + path.extname(file.originalname)]:
    the number is appended in decimal. *)
Definition filename (req : request) (f : upload_file) : string :=
  ((fieldname f +:+ "-") +:+ pretty now) +:+ extname (originalname f).
End Upload.

(** ** What the proofs assume of jsonwebtoken

    [jwt.sign] stamps [iat = floor(now / 1000)] and, under
    [expiresIn: '1h'], [exp = iat + 3600]; it refuses a missing or empty
    secret and otherwise returns a (non-empty) compact token.  [jwt.verify]
    with the signing secret returns the payload with both stamps while the
    clock (in seconds) is below [exp], and an error from [exp] on. *)
Record JwtContract (P : Platform) : Prop := {
  sign_with_secret : forall p sec t,
    falsy sec = false -> exists tok, jwt_sign P p sec sign_options t = Ok tok;
  sign_without_secret : forall p sec o t,
    falsy sec = true -> exists e, jwt_sign P p sec o t = Throw e;
  sign_nonempty : forall p sec o t tok,
    jwt_sign P p sec o t = Ok tok -> truthy_string tok = true;
  verify_fresh : forall p sec t0 tok t1,
    jwt_sign P p sec sign_options t0 = Ok tok ->
    t1 / 1000 < t0 / 1000 + 3600 ->
    jwt_verify P tok sec t1 =
      Ok {| id := p_id p; c_email := p_email p;
            iat := t0 / 1000; exp := t0 / 1000 + 3600 |};
  verify_expired : forall p sec t0 tok t1,
    jwt_sign P p sec sign_options t0 = Ok tok ->
    t0 / 1000 + 3600 <= t1 / 1000 ->
    exists e, jwt_verify P tok sec t1 = Throw e
}.

(** ** A reference platform

    An executable instance of [Platform]: the database is the list of user
    documents, and a token spells out its fields one after the other.  It
    shows that [JwtContract] can be met and lets the routes be run. *)
Module Reference.

Fixpoint enc_string (s : string) : string :=
  match s with
  | EmptyString => "."
  | String a s' => String "c"%char (String a (enc_string s'))
  end.

Fixpoint dec_string (t : string) : option (string * string) :=
  match t with
  | EmptyString => None
  | String a rest =>
      if Ascii.eqb a "."%char then Some ("", rest)
      else
        match rest with
        | EmptyString => None
        | String b rest' =>
            match dec_string rest' with
            | Some (s, r) => Some (String b s, r)
            | None => None
            end
        end
  end.

Fixpoint enc_pos (p : positive) : string :=
  match p with
  | xH => "."
  | xO p' => String "o"%char (enc_pos p')
  | xI p' => String "i"%char (enc_pos p')
  end.

Fixpoint dec_pos (t : string) : option (positive * string) :=
  match t with
  | EmptyString => None
  | String a rest =>
      if Ascii.eqb a "."%char then Some (xH, rest)
      else
        match dec_pos rest with
        | Some (p, r) => Some (if Ascii.eqb a "o"%char then xO p else xI p, r)
        | None => None
        end
  end.

Definition enc_Z (z : Z) : string :=
  match z with
  | Z0 => "0"
  | Zpos p => String "+"%char (enc_pos p)
  | Zneg p => String "-"%char (enc_pos p)
  end.

Definition dec_Z (t : string) : option (Z * string) :=
  match t with
  | EmptyString => None
  | String a rest =>
      if Ascii.eqb a "0"%char then Some (Z0, rest)
      else
        match dec_pos rest with
        | Some (p, r) => Some (if Ascii.eqb a "-"%char then Zneg p else Zpos p, r)
        | None => None
        end
  end.

Definition enc_option (o : option string) : string :=
  match o with
  | None => "n"
  | Some s => String "s"%char (enc_string s)
  end.

Definition dec_option (t : string) : option (option string * string) :=
  match t with
  | EmptyString => None
  | String a rest =>
      if Ascii.eqb a "n"%char then Some (None, rest)
      else
        match dec_string rest with
        | Some (s, r) => Some (Some s, r)
        | None => None
        end
  end.

Definition enc_json (o : option jsonval) : string :=
  match o with
  | None => "n"
  | Some (JsonString s) => String "s"%char (enc_string s)
  | Some (JsonOther text) => String "j"%char (enc_string text)
  end.

Definition dec_json (t : string) : option (option jsonval * string) :=
  match t with
  | EmptyString => None
  | String a rest =>
      if Ascii.eqb a "n"%char then Some (None, rest)
      else
        match dec_string rest with
        | Some (s, r) =>
            Some (Some (if Ascii.eqb a "s"%char then JsonString s else JsonOther s), r)
        | None => None
        end
  end.

Definition encode (sec : option string) (c : Claims) : string :=
  String "t"
    (enc_option sec +:+ enc_string (id c) +:+ enc_json (c_email c) +:+
     enc_Z (iat c) +:+ enc_Z (exp c)).

Definition decode (t : string) : option (option string * Claims) :=
  match t with
  | EmptyString => None
  | String _ t1 =>
      '(sec, t2) ← dec_option t1;
      '(i, t3) ← dec_string t2;
      '(e, t4) ← dec_json t3;
      '(issued, t5) ← dec_Z t4;
      '(expires, t6) ← dec_Z t5;
      if String.eqb t6 "" then
        Some (sec, {| id := i; c_email := e; iat := issued; exp := expires |})
      else None
  end.

Definition sign (p : Payload) (sec : option string) (o : SignOptions) (now : Z)
    : result string :=
  if falsy sec then Throw "secretOrPrivateKey must have a value"
  else if String.eqb (expiresIn o) "1h" then
    Ok (encode sec {| id := p_id p; c_email := p_email p;
                      iat := now / 1000; exp := now / 1000 + 3600 |})
  else Throw "unsupported expiresIn".

Definition verify (token : string) (sec : option string) (now : Z) : result Claims :=
  if falsy sec then Throw "secret or public key must be provided"
  else
    match decode token with
    | None => Throw "jwt malformed"
    | Some (signer, c) =>
        if bool_decide (signer = sec) then
          if (exp c <=? now / 1000)%Z then Throw "jwt expired" else Ok c
        else Throw "invalid signature"
    end.

Definition findOne (d : list User) (e : option jsonval) : result (option User) :=
  Ok (List.find (fun u => bool_decide (email u = e)) d).

Definition insertOne (d : list User) (nu : NewUser) : result (list User * string) :=
  let new_id := String "u"%char (enc_pos (Pos.of_succ_nat (length d))) in
  Ok (d ++ [ {| _id := new_id; name := nu_name nu; mobile := nu_mobile nu;
                email := nu_email nu; password := Some (nu_password nu) |} ],
      new_id).

Definition hash (pw : option jsonval) (rounds : Z) : result string :=
  match pw with
  | Some (JsonString s) => Ok ("$2a$" +:+ s)
  | Some (JsonOther _) => Throw "Illegal arguments: object, number"
  | None => Throw "Illegal arguments: undefined, number"
  end.

Definition compare (pw : option jsonval) (stored : option string) : result bool :=
  match pw, stored with
  | Some (JsonString s), Some h => Ok (String.eqb ("$2a$" +:+ s) h)
  | _, _ => Throw "Illegal arguments"
  end.

(** The client is its connection string; there is none without one. *)
Definition new_client (url : option string) : result string :=
  match url with
  | Some u => Ok u
  | None => Throw "MongoParseError"
  end.

Definition connect (client : string) (name : string) : result (list User) :=
  Ok [].

(** Ports of more than five characters are out of range. *)
Definition listen (port : string) : listen_outcome :=
  if (5 <? String.length port)%nat then ListenThrows "ERR_SOCKET_BAD_PORT"
  else Bound.

(** A stand-in for the upload middleware: the body entry under the upload
    field is the file part and its value the stored name, the other
    entries are the text fields; an entry [attachment] is a file sent under
    a field the middleware does not expect. *)
Definition upload (field : string) (req : request)
    : result (gmap string jsonval * option string) :=
  match body req !! "attachment" with
  | Some _ => Throw "MulterError: Unexpected field"
  | None =>
      Ok (delete field (body req),
          match body req !! field with
          | Some (JsonString stored) => Some stored
          | _ => None
          end)
  end.

Definition platform : Platform := {|
  DB := list User;
  Client := string;
  MongoClient_new := new_client;
  client_connect := connect;
  app_listen := listen;
  multer_single := upload;
  users_findOne := findOne;
  users_insertOne := insertOne;
  vehicles_insertOne := fun d _ => Ok (d, tt);
  vehicles_find := fun _ _ => Ok [];
  bcrypt_compare := compare;
  bcrypt_hash := hash;
  jwt_sign := sign;
  jwt_verify := verify
|}.

End Reference.

(** ** The Credential Codec of the specification *)

(** Modelled from the spec: the Credential Codec of section 4.1 ([issue]
    and [verify]) over the Credential of section 3.  In the program the
    codec is the jsonwebtoken package behind [jwt.sign] and [jwt.verify],
    whose code is not under src/.  The specification leaves the signature
    and the encoding open: the signature is any function of the secret and
    the encoded payload, the encoding is the one of the reference platform,
    and time is the caller's clock. *)
Module Codec.

(** Modelled from the spec: the Credential of section 3,
    {subject_id, subject_email, issued_at, expires_at, signature}. *)
Record Credential := {
  subject_id : string;
  subject_email : option jsonval;
  issued_at : Z;
  expires_at : Z;
  signature : string
}.

(** Modelled from the spec: the TTL policy of section 4.1, fixed at 1 hour
    from issuance (in the milliseconds of the clock). *)
Definition ttl : Z := 60 * 60 * 1000.

Section WithSignature.
(** The signature of an encoded payload under a secret. *)
Variable sign_payload : string -> string -> string.

(** Modelled from the spec: the encoded payload, the four fields that are
    signed. *)
Definition encode_payload (c : Credential) : string :=
  Reference.enc_string (subject_id c) +:+ Reference.enc_json (subject_email c) +:+
  Reference.enc_Z (issued_at c) +:+ Reference.enc_Z (expires_at c).

(** Modelled from the spec: the artifact, an opaque signed string: the
    encoded payload followed by the signature. *)
Definition artifact_of (c : Credential) : string :=
  encode_payload c +:+ Reference.enc_string (signature c).

(** Modelled from the spec: reading an artifact back; [None] when it is
    malformed. *)
Definition parse (artifact : string) : option Credential :=
  '(i, t1) ← Reference.dec_string artifact;
  '(e, t2) ← Reference.dec_json t1;
  '(issued, t3) ← Reference.dec_Z t2;
  '(expires, t4) ← Reference.dec_Z t3;
  '(sig, t5) ← Reference.dec_string t4;
  if String.eqb t5 "" then
    Some {| subject_id := i; subject_email := e; issued_at := issued;
            expires_at := expires; signature := sig |}
  else None.

(** Modelled from the spec: [issue(subject_id, subject_email, ttl) ->
    artifact] of section 4.1, which encodes {subject_id, subject_email,
    issued_at = now, expires_at = now + ttl} and signs it with the
    secret. *)
Definition issue (secret : string) (now : Z) (id : string)
    (email : option jsonval) (ttl : Z) : string :=
  let unsigned :=
    {| subject_id := id; subject_email := email; issued_at := now;
       expires_at := now + ttl; signature := "" |} in
  artifact_of
    {| subject_id := id; subject_email := email; issued_at := now;
       expires_at := now + ttl;
       signature := sign_payload secret (encode_payload unsigned) |}.

(** Modelled from the spec: the checks of [verify] of section 4.1, [None]
    (Invalid) if the payload is malformed, if the signature recomputed over
    the encoded payload does not match, or if [now > expires_at]. *)
Definition validate (secret : string) (now : Z) (artifact : string)
    : option Credential :=
  match parse artifact with
  | None => None
  | Some c =>
      if negb (String.eqb (signature c) (sign_payload secret (encode_payload c)))
      then None
      else if expires_at c <? now then None
      else Some c
  end.

(** Modelled from the spec: [verify(artifact) -> RequestIdentity |
    Invalid], the {id, email} of a credential that passed the checks. *)
Definition verify (secret : string) (now : Z) (artifact : string)
    : option (string * option jsonval) :=
  (fun c => (subject_id c, subject_email c)) <$> validate secret now artifact.

End WithSignature.
End Codec.

(** Modelled from the spec: jsonwebtoken's [jwt.sign] and [jwt.verify],
    which are not under src/, as the codec of the specification, reading
    the clock as [Date.now()] gives it; every other package is as in [P].
    Without a secret there is nothing to sign or to check with, and the
    one lifetime the routes ask for, ['1h'], is the codec's. *)
Definition codec_platform (sign_payload : string -> string -> string)
    (P : Platform) : Platform := {|
  DB := DB P;
  Client := Client P;
  MongoClient_new := MongoClient_new P;
  client_connect := client_connect P;
  app_listen := app_listen P;
  multer_single := multer_single P;
  users_findOne := users_findOne P;
  users_insertOne := users_insertOne P;
  vehicles_insertOne := vehicles_insertOne P;
  vehicles_find := vehicles_find P;
  bcrypt_compare := bcrypt_compare P;
  bcrypt_hash := bcrypt_hash P;
  jwt_sign := fun payload sec options now =>
    match sec with
    | None => Throw "secretOrPrivateKey must have a value"
    | Some secret =>
        if negb (truthy_string secret) then
          Throw "secretOrPrivateKey must have a value"
        else if String.eqb (expiresIn options) "1h" then
          Ok (Codec.issue sign_payload secret now (p_id payload) (p_email payload)
                Codec.ttl)
        else Throw "unsupported expiresIn"
    end;
  jwt_verify := fun token sec now =>
    match sec with
    | None => Throw "secret or public key must be provided"
    | Some secret =>
        match Codec.validate sign_payload secret now token with
        | Some c =>
            Ok {| id := Codec.subject_id c; c_email := Codec.subject_email c;
                  iat := Codec.issued_at c; exp := Codec.expires_at c |}
        | None => Throw "invalid token"
        end
    end
|}.

(** ** Vocabulary of the properties *)

(** The gate hands the request to the protected handler with [claims] in
    [req.user], and does nothing else. *)
Definition gate_forwards (P : Platform) (env : Env) (now : Z) (req : request)
    (w : world P) (claims : Claims) : Prop :=
  forall next : request -> M (P:=P) unit,
    authenticateToken P env now req next w = next (set_user req (Some claims)) w.

(** The gate answers with the redirect to the login page, and the protected
    handler has no part in what happens. *)
Definition gate_redirects (P : Platform) (env : Env) (now : Z) (req : request)
    (w : world P) : Prop :=
  forall next : request -> M (P:=P) unit,
    authenticateToken P env now req next w = res_redirect P "/login.html" w.

(** The tokens a log sets as the [token] cookie. *)
Definition credentials_in (l : list event) : list string :=
  omap (fun ev =>
          match ev with
          | ResCookie n v _ => if String.eqb n "token" then Some v else None
          | _ => None
          end) l.

(** What a handler adds to the log of the world it starts in. *)
Definition emitted {P : Platform} (m : M (P:=P) unit) (w : world P) : list event :=
  drop (length (log w)) (log (run m w)).

(** The world after a handler has appended [evs] to the log. *)
Definition logged {P : Platform} (w : world P) (evs : list event) : world P :=
  {| db := db w; log := log w ++ evs |}.

(** [req] with [req.params.type] bound to [type], as Express binds it when
    it matches the path [/vehicles/:type]. *)
Definition with_type (req : request) (type : string) : request :=
  {| cookies := cookies req; body := body req;
     params := <["type" := type]> (params req); file := file req;
     user := user req |}.

(** The routes the file registers, in the order of the source: method,
    path and the handler chain (lines 58, 81, 101, 109, 114, 119, 145). *)
Definition routes (P : Platform) (env : Env) (now : Z)
    : list (string * string * (request -> M (P:=P) unit)) :=
  [ ("POST", "/login", login P env now);
    ("POST", "/signup", signup P env now);
    ("GET", "/logout", logout P);
    ("GET", "/home", home P env now);
    ("GET", "/explore", explore P env now);
    ("POST", "/registerVehicle", registerVehicle P env now);
    ("GET", "/vehicles/:type", vehicles P env now) ].

(** What ends a response: [redirect], [send], [sendFile], [render], and
    the answer of the default error handler. *)
Definition is_response (ev : event) : bool :=
  match ev with
  | ResRedirect _ | ResSend _ | ResSendFile _ | ResRender _ _
  | ResError _ => true
  | _ => false
  end.

(** What a handler of the file sends to the client, apart from cookies and
    rendered data, is one of the literals of the source; the answer of the
    default error handler is not. *)
Definition from_source (ev : event) : Prop :=
  match ev with
  | ResRedirect url =>
      url ∈ ["/login.html"; "/login.html?error=invalid"; "/home"; "/explore"]
  | ResStatus code => code = 404 \/ code = 500
  | ResSend text =>
      text ∈ ["An error occurred during the login process.";
              "Error inserting record."; "Registration Failed.";
              "Vehicle category not found."; "Failed to retrieve data."]
  | ResSendFile f => f ∈ ["public/home.html"; "public/explore.html"]
  | ResRender view _ => view = "excavator"
  | ResError _ => False
  | _ => True
  end.

(** A string without a dot, such as a number in decimal. *)
Fixpoint dotless (s : string) : bool :=
  match s with
  | EmptyString => true
  | String a s' => negb (Ascii.eqb a "."%char) && dotless s'
  end.

(** What [path.extname] returns: nothing, or an extension with its dot. *)
Definition extension (e : string) : Prop :=
  e = "" \/ exists r, e = String "."%char r.

(** ** Concrete scenarios on the reference platform *)
Module Scenario.

Definition env0 : Env :=
  {| PORT := None; MONGO_URL := Some "mongodb://localhost"; JWT_SECRET := Some "k" |}.

(** The same process without [JWT_SECRET] in its environment. *)
Definition env_no_secret : Env :=
  {| PORT := None; MONGO_URL := Some "mongodb://localhost"; JWT_SECRET := None |}.

Definition alice : User :=
  {| _id := "u1"; name := Some (JsonString "A"); mobile := Some (JsonString "1");
     email := Some (JsonString "a@x.com"); password := Some "$2a$secret" |}.

Definition w0 : world Reference.platform :=
  @Build_world Reference.platform [alice] [].

Definition anonymous : request :=
  {| cookies := ∅; body := ∅; params := ∅; file := None; user := None |}.

Definition bearing (token : string) : request :=
  {| cookies := {[ "token" := token ]}; body := ∅; params := ∅;
     file := None; user := None |}.

Definition login_form (e pw : string) : request :=
  {| cookies := ∅;
     body := {[ "email" := JsonString e; "password" := JsonString pw ]};
     params := ∅; file := None; user := None |}.

Definition signup_form (n m e pw : string) : request :=
  {| cookies := ∅;
     body := {[ "name" := JsonString n; "mobile" := JsonString m;
                "email" := JsonString e; "password" := JsonString pw ]};
     params := ∅; file := None; user := None |}.

(** The same platform with the codec of the specification in the place of
    its [jwt.sign] and [jwt.verify]; the signature of a payload is the
    secret followed by the payload. *)
Definition codec : Platform := codec_platform String.append Reference.platform.

Definition w0c : world codec := @Build_world codec [alice] [].

(** The token alice gets when she logs in at clock reading 5000. *)
Definition alice_token : string :=
  match issue Reference.platform env0 5000
          {| p_id := "u1"; p_email := Some (JsonString "a@x.com") |} with
  | Ok tok => tok
  | Throw _ => ""
  end.

End Scenario.

(** A stand-in for [path.extname] on plain file names: the part from the
    last dot on, unless that dot is the first character. *)
Module ReferenceUpload.

Fixpoint last_dot (s : string) : option string :=
  match s with
  | EmptyString => None
  | String a s' =>
      match last_dot s' with
      | Some e => Some e
      | None => if Ascii.eqb a "."%char then Some (String a s') else None
      end
  end.

Definition extname (p : string) : string :=
  match p with
  | EmptyString => ""
  | String _ rest => default "" (last_dot rest)
  end.

End ReferenceUpload.

(** * Properties *)

(** ** The reference platform meets the contract *)

Module ReferenceFacts.
Import Reference.

Lemma dec_enc_string s r : dec_string (enc_string s +:+ r) = Some (s, r).
Proof.
  induction s as [|a s IH]; simpl; [reflexivity|].
  now rewrite IH.
Qed.

Lemma dec_enc_pos p r : dec_pos (enc_pos p +:+ r) = Some (p, r).
Proof.
  induction p as [p IH|p IH|]; simpl; try reflexivity; now rewrite IH.
Qed.

Lemma dec_enc_Z z r : dec_Z (enc_Z z +:+ r) = Some (z, r).
Proof.
  destruct z as [|p|p]; simpl; try reflexivity; now rewrite dec_enc_pos.
Qed.

Lemma dec_enc_option o r : dec_option (enc_option o +:+ r) = Some (o, r).
Proof.
  destruct o as [s|]; simpl; [|reflexivity].
  now rewrite dec_enc_string.
Qed.

Lemma dec_enc_json o r : dec_json (enc_json o +:+ r) = Some (o, r).
Proof.
  destruct o as [[s|text]|]; simpl; [| |reflexivity];
    now rewrite dec_enc_string.
Qed.

Lemma append_nil_r (s : string) : s +:+ "" = s.
Proof.
  induction s as [|a s IH]; [reflexivity|].
  change (String a (s +:+ "") = String a s). now rewrite IH.
Qed.

Lemma decode_encode sec c : decode (encode sec c) = Some (sec, c).
Proof.
  destruct c as [i e issued expires]. unfold encode, decode. simpl.
  rewrite <- (append_nil_r (enc_Z expires)).
  rewrite dec_enc_option. simpl.
  rewrite dec_enc_string. simpl.
  rewrite dec_enc_json. simpl.
  rewrite dec_enc_Z. simpl.
  rewrite dec_enc_Z. simpl.
  reflexivity.
Qed.

Lemma sign_inv p sec o t tok :
  sign p sec o t = Ok tok ->
  falsy sec = false /\
  tok = encode sec {| id := p_id p; c_email := p_email p;
                      iat := t / 1000; exp := t / 1000 + 3600 |}.
Proof.
  unfold sign. destruct (falsy sec); [discriminate|].
  destruct (String.eqb (expiresIn o) "1h"); [|discriminate].
  intros [= <-]. split; reflexivity.
Qed.

Lemma contract : JwtContract platform.
Proof.
  split; simpl.
  - intros p sec t Hs. unfold sign. rewrite Hs. simpl. eauto.
  - intros p sec o t Hs. unfold sign. rewrite Hs. eauto.
  - intros p sec o t tok Hs. apply sign_inv in Hs as [_ ->]. reflexivity.
  - intros p sec t0 tok t1 Hs Hlt. apply sign_inv in Hs as [Hsec ->].
    unfold verify. rewrite Hsec, decode_encode.
    rewrite bool_decide_eq_true_2 by reflexivity. simpl.
    destruct (Z.leb_spec (t0 / 1000 + 3600) (t1 / 1000)); [lia|reflexivity].
  - intros p sec t0 tok t1 Hs Hle. apply sign_inv in Hs as [Hsec ->].
    unfold verify. rewrite Hsec, decode_encode.
    rewrite bool_decide_eq_true_2 by reflexivity. simpl.
    destruct (Z.leb_spec (t0 / 1000 + 3600) (t1 / 1000)); [eauto|lia].
Qed.

End ReferenceFacts.

(** ** The authentication gate *)

Section Gate.
Variable P : Platform.
Variable env : Env.
Variable now : Z.

Lemma log_grows (w : world P) (evs : list event) :
  evs <> [] -> logged w evs <> w.
Proof.
  intros Hne Heq. apply (f_equal log) in Heq. simpl in Heq.
  apply (f_equal length) in Heq. rewrite length_app in Heq.
  destruct evs; [congruence|simpl in Heq; lia].
Qed.

Lemma gate_accepts req w token claims :
  cookies req !! "token" = Some token ->
  truthy_string token = true ->
  jwt_verify P token (JWT_SECRET env) now = Ok claims ->
  gate_forwards P env now req w claims.
Proof.
  intros Hc Ht Hv next. unfold authenticateToken, jwt_verify_cb.
  now rewrite Hc, Ht, Hv.
Qed.

Lemma gate_rejects_absent req w :
  cookies req !! "token" = None -> gate_redirects P env now req w.
Proof. intros Hc next. unfold authenticateToken. now rewrite Hc. Qed.

Lemma gate_rejects_empty req w token :
  cookies req !! "token" = Some token ->
  truthy_string token = false ->
  gate_redirects P env now req w.
Proof. intros Hc Ht next. unfold authenticateToken. now rewrite Hc, Ht. Qed.

Lemma gate_rejects_invalid req w token err :
  cookies req !! "token" = Some token ->
  jwt_verify P token (JWT_SECRET env) now = Throw err ->
  gate_redirects P env now req w.
Proof.
  intros Hc Hv next. unfold authenticateToken, jwt_verify_cb.
  rewrite Hc, Hv. now destruct (truthy_string token).
Qed.

Lemma redirect_run (w : world P) url :
  res_redirect P url w = (Ok tt, logged w [ResRedirect url]).
Proof. reflexivity. Qed.

(** Forwarding and redirecting exclude each other: a handler that does
    nothing tells them apart. *)
Lemma forward_or_redirect req w claims :
  gate_forwards P env now req w claims -> gate_redirects P env now req w -> False.
Proof.
  intros Hf Hr.
  specialize (Hf (fun _ => ret tt)). specialize (Hr (fun _ => ret tt)).
  rewrite Hf, redirect_run in Hr. unfold ret in Hr.
  injection Hr as Hr. symmetry in Hr. now apply log_grows in Hr.
Qed.

End Gate.



(** C4 - uniform rejection.  A request without the [token] cookie and a
    request whose token [jwt.verify] refuses, for whatever reason [err],
    get the same answer from the gate: the single redirect to
    [/login.html], in which nothing of [err] appears, and the protected
    handler is not run. *)
Theorem uniform_rejection (P : Platform) (env : Env) (now : Z)
    (req_none req_bad : request) (token err : string)
    (next1 next2 : request -> M (P:=P) unit) (w1 w2 : world P) :
  cookies req_none !! "token" = None ->
  cookies req_bad !! "token" = Some token ->
  jwt_verify P token (JWT_SECRET env) now = Throw err ->
  authenticateToken P env now req_none next1 w1
    = (Ok tt, logged w1 [ResRedirect "/login.html"]) /\
  authenticateToken P env now req_bad next2 w2
    = (Ok tt, logged w2 [ResRedirect "/login.html"]).
Proof.
  intros Hnone Hbad Hv. split.
  - rewrite (gate_rejects_absent P env now req_none w1 Hnone next1). reflexivity.
  - rewrite (gate_rejects_invalid P env now req_bad w2 token err Hbad Hv next2).
    reflexivity.
Qed.

(** The anonymous request and a request with a malformed token, on the
    reference platform. *)
Lemma uniform_rejection_witness :
  authenticateToken Reference.platform Scenario.env0 6000 Scenario.anonymous
      (fun _ => res_sendFile Reference.platform "public/home.html") Scenario.w0
    = (Ok tt, logged Scenario.w0 [ResRedirect "/login.html"]) /\
  authenticateToken Reference.platform Scenario.env0 6000
      (Scenario.bearing "not.a.token")
      (fun _ => res_sendFile Reference.platform "public/home.html") Scenario.w0
    = (Ok tt, logged Scenario.w0 [ResRedirect "/login.html"]).
Proof.
  apply (uniform_rejection Reference.platform Scenario.env0 6000
           Scenario.anonymous (Scenario.bearing "not.a.token")
           "not.a.token" "jwt malformed").
  - reflexivity.
  - reflexivity.
  - vm_compute. reflexivity.
Defined.

(** ** Issuing routes *)

(** Unfolds a route down to the calls into the platform. *)
Ltac open_route :=
  unfold run, login, signup, logout, vehicles_handler, registerVehicle_handler,
    try_catch, bind, call,
    update, emit, ret, res_redirect, res_cookie, res_clearCookie, res_status,
    res_send, res_render, console_log, console_error, logged; simpl.

Lemma login_unknown_user (P : Platform) env now req w :
  users_findOne P (db w) (body req !! "email") = Ok None ->
  run (login P env now req) w =
    logged w [DbFindOneUser (body req !! "email");
              ResRedirect "/login.html?error=invalid"].
Proof.
  intros Hf. open_route. rewrite Hf. simpl.
  now rewrite <- app_assoc.
Qed.

Lemma login_wrong_password (P : Platform) env now req w u :
  users_findOne P (db w) (body req !! "email") = Ok (Some u) ->
  bcrypt_compare P (body req !! "password") (password u) = Ok false ->
  run (login P env now req) w =
    logged w [DbFindOneUser (body req !! "email");
              ResRedirect "/login.html?error=invalid"].
Proof.
  intros Hf Hc. open_route. rewrite Hf. simpl. rewrite Hc. simpl.
  now rewrite app_nil_r, <- app_assoc.
Qed.

Lemma login_success (P : Platform) env now req w u token :
  users_findOne P (db w) (body req !! "email") = Ok (Some u) ->
  bcrypt_compare P (body req !! "password") (password u) = Ok true ->
  issue P env now {| p_id := _id u; p_email := email u |} = Ok token ->
  run (login P env now req) w =
    logged w [DbFindOneUser (body req !! "email");
              ResCookie "token" token true; ResRedirect "/home"].
Proof.
  intros Hf Hc Hi. open_route. rewrite Hf. simpl. rewrite Hc. simpl.
  rewrite Hi. simpl.
  now rewrite !app_nil_r, <- !app_assoc.
Qed.

Lemma login_sign_failure (P : Platform) env now req w u err :
  users_findOne P (db w) (body req !! "email") = Ok (Some u) ->
  bcrypt_compare P (body req !! "password") (password u) = Ok true ->
  issue P env now {| p_id := _id u; p_email := email u |} = Throw err ->
  run (login P env now req) w =
    logged w [DbFindOneUser (body req !! "email");
              ConsoleError "Error during login:" err;
              ResStatus 500;
              ResSend "An error occurred during the login process."].
Proof.
  intros Hf Hc Hi. open_route. rewrite Hf. simpl. rewrite Hc. simpl.
  rewrite Hi. simpl.
  now rewrite !app_nil_r, <- !app_assoc.
Qed.

(** C5, as stated, fails: in a process without [JWT_SECRET] the lookup
    finds alice and the comparison of her password succeeds, yet no
    credential is issued and she is not redirected to [/home]: the signing
    throws and the answer is the 500 of the [catch]. *)
Lemma login_without_secret :
  users_findOne Reference.platform (db Scenario.w0) (Some (JsonString "a@x.com"))
    = Ok (Some Scenario.alice) /\
  bcrypt_compare Reference.platform (Some (JsonString "secret"))
    (password Scenario.alice) = Ok true /\
  run (login Reference.platform Scenario.env_no_secret 5000
         (Scenario.login_form "a@x.com" "secret")) Scenario.w0
    = logged Scenario.w0
        [DbFindOneUser (Some (JsonString "a@x.com"));
         ConsoleError "Error during login:" "secretOrPrivateKey must have a value";
         ResStatus 500;
         ResSend "An error occurred during the login process."].
Proof. repeat split. Qed.

(** C5, amended - login.  When the lookup returns no user, and when
    [bcrypt.compare] returns false, the route does one and the same thing:
    the redirect to [/login.html?error=invalid], with no cookie set.  When
    both succeed, the route calls [jwt.sign] on the payload of the user's
    [_id] and [email] with the process secret and the one-hour option: with
    the secret configured the call returns a token; the token it returns is
    set as the [token] cookie and the client is redirected to [/home]; if
    the call throws, as it does without a secret, the answer is the logged
    500 and no cookie is set. *)
Theorem login_outcomes (P : Platform) (C : JwtContract P) (env : Env) (now : Z)
    (req : request) (w : world P) :
  let invalid :=
    [DbFindOneUser (body req !! "email"); ResRedirect "/login.html?error=invalid"] in
  (users_findOne P (db w) (body req !! "email") = Ok None ->
   run (login P env now req) w = logged w invalid) /\
  (forall u,
     users_findOne P (db w) (body req !! "email") = Ok (Some u) ->
     bcrypt_compare P (body req !! "password") (password u) = Ok false ->
     run (login P env now req) w = logged w invalid) /\
  credentials_in invalid = [] /\
  (forall u,
     users_findOne P (db w) (body req !! "email") = Ok (Some u) ->
     bcrypt_compare P (body req !! "password") (password u) = Ok true ->
     let signed :=
       jwt_sign P {| p_id := _id u; p_email := email u |} (JWT_SECRET env)
         {| expiresIn := "1h" |} now in
     (falsy (JWT_SECRET env) = false -> exists token, signed = Ok token) /\
     (forall token,
        signed = Ok token ->
        run (login P env now req) w =
          logged w [DbFindOneUser (body req !! "email");
                    ResCookie "token" token true; ResRedirect "/home"]) /\
     (forall err,
        signed = Throw err ->
        run (login P env now req) w =
          logged w [DbFindOneUser (body req !! "email");
                    ConsoleError "Error during login:" err;
                    ResStatus 500;
                    ResSend "An error occurred during the login process."])).
Proof.
  intros invalid. split; [|split; [|split]].
  - apply login_unknown_user.
  - intros u. apply login_wrong_password.
  - reflexivity.
  - intros u Hf Hc signed. split; [|split].
    + intros Hsecret.
      exact (sign_with_secret P C {| p_id := _id u; p_email := email u |}
               (JWT_SECRET env) now Hsecret).
    + intros token Hi. now apply (login_success P env now req w u).
    + intros err Hi. now apply (login_sign_failure P env now req w u).
Qed.

(** An unknown address, a wrong password and the right password, against a
    database that holds one user; the cookie is the token the reference
    platform signs for alice at clock reading 5000. *)
Lemma login_outcomes_witness :
  run (login Reference.platform Scenario.env0 5000
         (Scenario.login_form "nobody@x.com" "secret")) Scenario.w0
    = logged Scenario.w0 [DbFindOneUser (Some (JsonString "nobody@x.com"));
                          ResRedirect "/login.html?error=invalid"] /\
  run (login Reference.platform Scenario.env0 5000
         (Scenario.login_form "a@x.com" "wrong")) Scenario.w0
    = logged Scenario.w0 [DbFindOneUser (Some (JsonString "a@x.com"));
                          ResRedirect "/login.html?error=invalid"] /\
  run (login Reference.platform Scenario.env0 5000
         (Scenario.login_form "a@x.com" "secret")) Scenario.w0
    = logged Scenario.w0
        [DbFindOneUser (Some (JsonString "a@x.com"));
         ResCookie "token"
           (Reference.encode (Some "k")
              {| id := "u1"; c_email := Some (JsonString "a@x.com");
                 iat := 5; exp := 3605 |})
           true;
         ResRedirect "/home"].
Proof.
  split; [|split].
  - destruct (login_outcomes Reference.platform ReferenceFacts.contract
                Scenario.env0 5000 (Scenario.login_form "nobody@x.com" "secret")
                Scenario.w0) as (Hmiss & _).
    apply Hmiss. reflexivity.
  - destruct (login_outcomes Reference.platform ReferenceFacts.contract
                Scenario.env0 5000 (Scenario.login_form "a@x.com" "wrong")
                Scenario.w0) as (_ & Hwrong & _).
    apply (Hwrong Scenario.alice); reflexivity.
  - destruct (login_outcomes Reference.platform ReferenceFacts.contract
                Scenario.env0 5000 (Scenario.login_form "a@x.com" "secret")
                Scenario.w0) as (_ & _ & _ & Hright).
    destruct (Hright Scenario.alice eq_refl eq_refl) as (_ & Hsigned & _).
    apply Hsigned. reflexivity.
Defined.

Lemma signup_success (P : Platform) env now req w h d' new_id token :
  let newUser :=
    {| nu_name := body req !! "name"; nu_mobile := body req !! "mobile";
       nu_email := body req !! "email"; nu_password := h |} in
  bcrypt_hash P (body req !! "password") 10 = Ok h ->
  users_insertOne P (db w) newUser = Ok (d', new_id) ->
  issue P env now {| p_id := new_id; p_email := body req !! "email" |} = Ok token ->
  run (signup P env now req) w =
    {| db := d';
       log := log w ++ [DbInsertUser newUser;
                        ConsoleLog "Record inserted for:" (body req !! "email");
                        ResCookie "token" token true; ResRedirect "/home"] |}.
Proof.
  intros newUser Hh Hins Hi. open_route. rewrite Hh. simpl.
  fold newUser. rewrite Hins. simpl. rewrite Hi. simpl.
  now rewrite !app_nil_r, <- !app_assoc.
Qed.

Lemma emitted_logged (P : Platform) (m : M (P:=P) unit) (w : world P) d evs :
  run m w = {| db := d; log := log w ++ evs |} -> emitted m w = evs.
Proof. intros H. unfold emitted. rewrite H. simpl. apply drop_app_length. Qed.

(** Every token that the login route sets as a cookie is the result of
    [issue] on some payload; likewise for signup. *)
Lemma login_credentials (P : Platform) env now req w token :
  token ∈ credentials_in (emitted (login P env now req) w) ->
  exists payload, issue P env now payload = Ok token.
Proof.
  destruct (users_findOne P (db w) (body req !! "email")) as [[u|]|e] eqn:Hf.
  - destruct (bcrypt_compare P (body req !! "password") (password u))
      as [[|]|e] eqn:Hc.
    + destruct (issue P env now {| p_id := _id u; p_email := email u |})
        as [tok|e] eqn:Hi.
      * rewrite (emitted_logged _ _ _ _ _ (login_success P env now req w u tok Hf Hc Hi)).
        simpl. intros Hin. apply list_elem_of_singleton in Hin as ->. eauto.
      * rewrite (emitted_logged _ _ _ _ _ (login_sign_failure P env now req w u e Hf Hc Hi)).
        simpl. intros Hin. now apply elem_of_nil in Hin.
    + rewrite (emitted_logged _ _ _ _ _ (login_wrong_password P env now req w u Hf Hc)).
      simpl. intros Hin. now apply elem_of_nil in Hin.
    + unfold emitted. open_route. rewrite Hf. simpl. rewrite Hc. simpl.
      rewrite !app_nil_r, <- !app_assoc, drop_app_length. simpl.
      intros Hin. now apply elem_of_nil in Hin.
  - rewrite (emitted_logged _ _ _ _ _ (login_unknown_user P env now req w Hf)).
    simpl. intros Hin. now apply elem_of_nil in Hin.
  - unfold emitted. open_route. rewrite Hf. simpl.
    rewrite <- !app_assoc, drop_app_length. simpl.
    intros Hin. now apply elem_of_nil in Hin.
Qed.

Lemma signup_credentials (P : Platform) env now req w token :
  token ∈ credentials_in (emitted (signup P env now req) w) ->
  exists payload, issue P env now payload = Ok token.
Proof.
  destruct (bcrypt_hash P (body req !! "password") 10) as [h|e] eqn:Hh.
  - destruct (users_insertOne P (db w)
                {| nu_name := body req !! "name"; nu_mobile := body req !! "mobile";
                   nu_email := body req !! "email"; nu_password := h |})
      as [[d' new_id]|e] eqn:Hins.
    + destruct (issue P env now {| p_id := new_id; p_email := body req !! "email" |})
        as [tok|e] eqn:Hi.
      * rewrite (emitted_logged _ _ _ _ _
                   (signup_success P env now req w h d' new_id tok Hh Hins Hi)).
        simpl. intros Hin. apply list_elem_of_singleton in Hin as ->. eauto.
      * unfold emitted. open_route. rewrite Hh. simpl. rewrite Hins. simpl.
        rewrite Hi. simpl.
        rewrite !app_nil_r, <- !app_assoc, drop_app_length. simpl.
        intros Hin. now apply elem_of_nil in Hin.
    + unfold emitted. open_route. rewrite Hh. simpl. rewrite Hins. simpl.
      rewrite <- !app_assoc, drop_app_length. simpl.
      intros Hin. now apply elem_of_nil in Hin.
  - unfold emitted. open_route. rewrite Hh. simpl.
    rewrite ?app_nil_r, <- !app_assoc, drop_app_length. simpl.
    intros Hin. now apply elem_of_nil in Hin.
Qed.

(** ** Credentials through the gate *)

Lemma issued_nonempty (P : Platform) (C : JwtContract P) env t0 payload token :
  issue P env t0 payload = Ok token -> truthy_string token = true.
Proof. unfold issue. apply (sign_nonempty P C). Qed.

Lemma issued_fresh (P : Platform) (C : JwtContract P) env t0 t1 payload token :
  issue P env t0 payload = Ok token ->
  t1 / 1000 < t0 / 1000 + 3600 ->
  jwt_verify P token (JWT_SECRET env) t1 =
    Ok {| id := p_id payload; c_email := p_email payload;
          iat := t0 / 1000; exp := t0 / 1000 + 3600 |}.
Proof. unfold issue. apply (verify_fresh P C). Qed.

Lemma issued_expired (P : Platform) (C : JwtContract P) env t0 t1 payload token :
  issue P env t0 payload = Ok token ->
  t0 / 1000 + 3600 <= t1 / 1000 ->
  exists err, jwt_verify P token (JWT_SECRET env) t1 = Throw err.
Proof. unfold issue. apply (verify_expired P C). Qed.

(** A clock reading past [1000 * exp] milliseconds is at or past [exp]
    seconds. *)
Lemma past_expiry (e t1 : Z) : 1000 * e < t1 -> e <= t1 / 1000.
Proof. intros H. apply Z.div_le_lower_bound; lia. Qed.

(** ** The codec of the specification *)

Lemma append_cons (a : ascii) (s t : string) : String a s +:+ t = String a (s +:+ t).
Proof. reflexivity. Qed.

Lemma append_assoc (a b c : string) : (a +:+ b) +:+ c = a +:+ (b +:+ c).
Proof.
  induction a as [|x a IH]; [reflexivity|].
  now rewrite !append_cons, IH.
Qed.

Module CodecFacts.
Import Reference ReferenceFacts.

Section WithSignature.
Variable sign_payload : string -> string -> string.

Lemma parse_artifact (c : Codec.Credential) :
  Codec.parse (Codec.artifact_of c) = Some c.
Proof.
  destruct c as [i e issued expires sig].
  unfold Codec.parse, Codec.artifact_of, Codec.encode_payload. simpl.
  rewrite <- (append_nil_r (enc_string sig)).
  rewrite !append_assoc.
  rewrite dec_enc_string. simpl.
  rewrite dec_enc_json. simpl.
  rewrite dec_enc_Z. simpl.
  rewrite dec_enc_Z. simpl.
  rewrite dec_enc_string. simpl.
  reflexivity.
Qed.

(** What [issue] makes is read back in full, and its signature is the one
    [verify] recomputes. *)
Lemma validate_issue secret now now' id email ttl :
  Codec.validate sign_payload secret now'
    (Codec.issue sign_payload secret now id email ttl) =
  if now + ttl <? now' then None
  else
    Some {| Codec.subject_id := id; Codec.subject_email := email;
            Codec.issued_at := now; Codec.expires_at := now + ttl;
            Codec.signature :=
              sign_payload secret
                (Codec.encode_payload
                   {| Codec.subject_id := id; Codec.subject_email := email;
                      Codec.issued_at := now; Codec.expires_at := now + ttl;
                      Codec.signature := "" |}) |}.
Proof.
  unfold Codec.validate, Codec.issue. rewrite parse_artifact. simpl.
  unfold Codec.encode_payload at 1. simpl.
  unfold Codec.encode_payload at 1. simpl.
  rewrite String.eqb_refl. simpl. reflexivity.
Qed.

Lemma enc_string_nonempty s : truthy_string (enc_string s) = true.
Proof. destruct s; reflexivity. Qed.

Lemma issue_nonempty secret now id email ttl :
  truthy_string (Codec.issue sign_payload secret now id email ttl) = true.
Proof.
  unfold Codec.issue, Codec.artifact_of, Codec.encode_payload. simpl.
  destruct id; reflexivity.
Qed.

Variable P : Platform.

(** When the platform's [jwt.sign] returns under the routes' option, there
    is a secret and the token is the codec's artifact with the one-hour
    lifetime. *)
Lemma codec_sign_inv payload sec now token :
  jwt_sign (codec_platform sign_payload P) payload sec sign_options now = Ok token ->
  exists secret,
    sec = Some secret /\
    token = Codec.issue sign_payload secret now (p_id payload) (p_email payload)
              3600000.
Proof.
  simpl. destruct sec as [secret|]; [|discriminate].
  destruct (truthy_string secret); simpl; [|discriminate].
  intros [= <-]. eauto.
Qed.

Lemma verify_platform secret now token c :
  Codec.validate sign_payload secret now token = Some c ->
  jwt_verify (codec_platform sign_payload P) token (Some secret) now =
    Ok {| id := Codec.subject_id c; c_email := Codec.subject_email c;
          iat := Codec.issued_at c; exp := Codec.expires_at c |}.
Proof. simpl. now intros ->. Qed.

Lemma reject_platform secret now token :
  Codec.validate sign_payload secret now token = None ->
  jwt_verify (codec_platform sign_payload P) token (Some secret) now =
    Throw "invalid token".
Proof. simpl. now intros ->. Qed.

End WithSignature.
End CodecFacts.

(** The round trip on the platform of the codec: what the routes' signing
    expression returns is, up to its expiry, verified to the claims of the
    payload. *)
Lemma codec_roundtrip (sign_payload : string -> string -> string) (P : Platform)
    (env : Env) (t0 t1 : Z) (payload : Payload) (token : string) :
  issue (codec_platform sign_payload P) env t0 payload = Ok token ->
  t1 <= t0 + 3600000 ->
  exists secret,
    JWT_SECRET env = Some secret /\
    token = Codec.issue sign_payload secret t0 (p_id payload) (p_email payload)
              3600000 /\
    Codec.verify sign_payload secret t1 token
      = Some (p_id payload, p_email payload) /\
    jwt_verify (codec_platform sign_payload P) token (JWT_SECRET env) t1
      = Ok {| id := p_id payload; c_email := p_email payload;
              iat := t0; exp := t0 + 3600000 |}.
Proof.
  intros Hi Hlt.
  apply (CodecFacts.codec_sign_inv sign_payload P) in Hi as (secret & Hsec & ->).
  pose proof (CodecFacts.validate_issue sign_payload secret t0 t1
                (p_id payload) (p_email payload) 3600000) as Hval.
  rewrite (proj2 (Z.ltb_ge _ _)) in Hval by lia.
  pose proof (CodecFacts.verify_platform sign_payload P secret t1 _ _ Hval) as Hv.
  rewrite <- Hsec in Hv.
  exists secret. split; [exact Hsec|]. split; [reflexivity|].
  split; [unfold Codec.verify; rewrite Hval; reflexivity|exact Hv].
Qed.

(** C2 - round trip.  Against the codec of the specification in the place
    of jsonwebtoken: for every payload (id, email), a token that the
    routes' [jwt.sign] expression returned for it at [t0], presented to the
    gate no later than its expiry [t0 + 1 hour] and under the same process
    secret, verifies to the RequestIdentity (id, email), and the gate hands
    on the request with a [req.user] whose id and email are those of the
    payload. *)
Theorem verify_issue_roundtrip (sign_payload : string -> string -> string)
    (P : Platform) (env : Env) (t0 t1 : Z) (payload : Payload) (token : string)
    (req : request) (w : world (codec_platform sign_payload P)) :
  issue (codec_platform sign_payload P) env t0 payload = Ok token ->
  t1 <= t0 + 3600000 ->
  cookies req !! "token" = Some token ->
  exists secret claims req',
    JWT_SECRET env = Some secret /\
    token = Codec.issue sign_payload secret t0 (p_id payload) (p_email payload)
              3600000 /\
    Codec.verify sign_payload secret t1 token
      = Some (p_id payload, p_email payload) /\
    jwt_verify (codec_platform sign_payload P) token (JWT_SECRET env) t1
      = Ok claims /\
    identity claims = (p_id payload, p_email payload) /\
    user req' = Some claims /\
    (forall next,
       authenticateToken (codec_platform sign_payload P) env t1 req next w
       = next req' w).
Proof.
  intros Hi Hlt Hc.
  destruct (codec_roundtrip sign_payload P env t0 t1 payload token Hi Hlt)
    as (secret & Hsec & Htoken & Hver & Hv).
  eexists secret, _, (set_user req (Some _)).
  split; [exact Hsec|]. split; [exact Htoken|]. split; [exact Hver|].
  split; [exact Hv|]. split; [reflexivity|]. split; [reflexivity|].
  apply (gate_accepts _ env t1 req w _ _ Hc); [|exact Hv].
  subst token. apply CodecFacts.issue_nonempty.
Qed.

(** Alice's payload signed at clock reading 5000 and presented at 6000. *)
Lemma verify_issue_roundtrip_witness :
  let token :=
    Codec.issue String.append "k" 5000 "u1" (Some (JsonString "a@x.com")) 3600000 in
  Codec.verify String.append "k" 6000 token
    = Some ("u1", Some (JsonString "a@x.com")) /\
  exists req',
    (user req' ≫= fun c => Some (identity c))
      = Some ("u1", Some (JsonString "a@x.com")) /\
    forall next,
      authenticateToken Scenario.codec Scenario.env0 6000
        (Scenario.bearing token) next Scenario.w0c
      = next req' Scenario.w0c.
Proof.
  intros token.
  destruct (verify_issue_roundtrip String.append Reference.platform
              Scenario.env0 5000 6000
              {| p_id := "u1"; p_email := Some (JsonString "a@x.com") |}
              token (Scenario.bearing token) Scenario.w0c)
    as (secret & claims & req' & Hsec & _ & Hver & _ & Hid & Huser & Hgate).
  - reflexivity.
  - lia.
  - apply lookup_singleton_eq.
  - injection Hsec as <-. split; [exact Hver|].
    exists req'. split; [|exact Hgate].
    rewrite Huser. simpl. now rewrite Hid.
Defined.

(** C3 - expiry.  Against the codec of the specification in the place of
    jsonwebtoken: every token that login or signup sets as a cookie is a
    credential issued at the time of the request with the lifetime of one
    hour, which no request can alter ([expires_at = issued_at + 1 hour]);
    a credential issued with any lifetime [ttl] is Invalid at every time
    later than [issued_at + ttl]; and for the tokens of the routes the gate
    then redirects. *)
Theorem credential_expiry (sign_payload : string -> string -> string)
    (P : Platform) (env : Env) (t0 : Z) :
  (forall req w token,
     token ∈ credentials_in
               (emitted (login (codec_platform sign_payload P) env t0 req) w) \/
     token ∈ credentials_in
               (emitted (signup (codec_platform sign_payload P) env t0 req) w) ->
     exists secret id email c,
       JWT_SECRET env = Some secret /\
       token = Codec.issue sign_payload secret t0 id email (60 * 60 * 1000) /\
       Codec.parse token = Some c /\
       Codec.issued_at c = t0 /\
       Codec.expires_at c = Codec.issued_at c + 60 * 60 * 1000) /\
  (forall secret id email ttl t1,
     t0 + ttl < t1 ->
     Codec.verify sign_payload secret t1
       (Codec.issue sign_payload secret t0 id email ttl) = None) /\
  (forall payload token t1,
     issue (codec_platform sign_payload P) env t0 payload = Ok token ->
     t0 + 60 * 60 * 1000 < t1 ->
     (exists err,
        jwt_verify (codec_platform sign_payload P) token (JWT_SECRET env) t1
          = Throw err) /\
     (forall req w,
        cookies req !! "token" = Some token ->
        gate_redirects (codec_platform sign_payload P) env t1 req w)).
Proof.
  assert (Hlate : forall secret id email ttl t1,
    t0 + ttl < t1 ->
    Codec.validate sign_payload secret t1
      (Codec.issue sign_payload secret t0 id email ttl) = None).
  { intros secret id email ttl t1 Hlt.
    rewrite CodecFacts.validate_issue.
    destruct (Z.ltb_spec (t0 + ttl) t1); [reflexivity|lia]. }
  split; [|split].
  - intros req w token Hin.
    assert (Hissued : exists payload,
      issue (codec_platform sign_payload P) env t0 payload = Ok token).
    { destruct Hin as [Hin|Hin].
      - eapply login_credentials; eauto.
      - eapply signup_credentials; eauto. }
    destruct Hissued as (payload & Hi).
    apply (CodecFacts.codec_sign_inv sign_payload P) in Hi as (secret & Hsec & ->).
    eexists secret, (p_id payload), (p_email payload), _.
    split; [exact Hsec|]. split; [reflexivity|].
    split; [apply CodecFacts.parse_artifact|]. split; reflexivity.
  - intros secret id email ttl t1 Hlt.
    unfold Codec.verify. now rewrite Hlate.
  - intros payload token t1 Hi Hlt.
    apply (CodecFacts.codec_sign_inv sign_payload P) in Hi as (secret & Hsec & ->).
    pose proof (CodecFacts.reject_platform sign_payload P secret t1 _
                  (Hlate secret (p_id payload) (p_email payload) 3600000 t1 Hlt))
      as Hv.
    rewrite <- Hsec in Hv. split; [eauto|].
    intros req w Hc. eapply gate_rejects_invalid; eauto.
Qed.

(** Alice's token of clock reading 5000, presented one millisecond after
    its hour has passed. *)
Lemma credential_expiry_witness :
  let token :=
    Codec.issue String.append "k" 5000 "u1" (Some (JsonString "a@x.com")) 3600000 in
  Codec.verify String.append "k" 3605001 token = None /\
  gate_redirects Scenario.codec Scenario.env0 3605001
    (Scenario.bearing token) Scenario.w0c.
Proof.
  intros token.
  destruct (credential_expiry String.append Reference.platform Scenario.env0 5000)
    as (_ & Hlate & Hgate).
  split.
  - apply Hlate. lia.
  - destruct (Hgate {| p_id := "u1"; p_email := Some (JsonString "a@x.com") |}
                token 3605001) as (_ & Hredirect).
    + reflexivity.
    + lia.
    + apply Hredirect. apply lookup_singleton_eq.
Defined.

(** C6 - signup is signup-then-login.  With the codec of the specification
    in the place of jsonwebtoken: when every step of the route succeeds (the
    hash, the insert, the signing), the user document with the hashed
    password is inserted first, a token over the new [_id] and the
    submitted email is then set as the [token] cookie, and the client is
    redirected to [/home] as after a login; a later request that bears this
    token, while it has not expired, is handed on by the gate with a
    [req.user] that carries the new [_id] and the submitted email. *)
Theorem signup_auto_login (sign_payload : string -> string -> string)
    (P : Platform) (env : Env) (t0 : Z) (req : request)
    (w : world (codec_platform sign_payload P)) (h : string) (d' : DB P)
    (new_id token : string) :
  let newUser :=
    {| nu_name := body req !! "name"; nu_mobile := body req !! "mobile";
       nu_email := body req !! "email"; nu_password := h |} in
  bcrypt_hash P (body req !! "password") 10 = Ok h ->
  users_insertOne P (db w) newUser = Ok (d', new_id) ->
  issue (codec_platform sign_payload P) env t0
    {| p_id := new_id; p_email := body req !! "email" |} = Ok token ->
  run (signup (codec_platform sign_payload P) env t0 req) w =
    @Build_world (codec_platform sign_payload P) d'
      (log w ++ [DbInsertUser newUser;
                 ConsoleLog "Record inserted for:" (body req !! "email");
                 ResCookie "token" token true; ResRedirect "/home"]) /\
  (forall t1 req' w',
     t1 <= t0 + 60 * 60 * 1000 ->
     cookies req' !! "token" = Some token ->
     exists claims req'',
       user req'' = Some claims /\
       id claims = new_id /\ c_email claims = body req !! "email" /\
       forall next,
         authenticateToken (codec_platform sign_payload P) env t1 req' next w'
         = next req'' w').
Proof.
  intros newUser Hh Hins Hi. split.
  - now apply (signup_success (codec_platform sign_payload P) env t0 req w h d'
                 new_id token).
  - intros t1 req' w' Hlt Hc.
    destruct (codec_roundtrip sign_payload P env t0 t1 _ token Hi Hlt)
      as (secret & _ & Htoken & _ & Hv).
    eexists _, (set_user req' (Some _)).
    split; [reflexivity|]. split; [|split]; cycle 2.
    + apply (gate_accepts _ env t1 req' w' token _ Hc); [|exact Hv].
      subst token. apply CodecFacts.issue_nonempty.
    + reflexivity.
    + reflexivity.
Qed.

(** The scenario of the specification: sign up as N / M / b@x.com / pw at
    clock reading 5000, then ask for [/home] at 6000 with the cookie. *)
Lemma signup_auto_login_witness :
  let token :=
    Codec.issue String.append "k" 5000 "uo." (Some (JsonString "b@x.com")) 3600000 in
  run (signup Scenario.codec Scenario.env0 5000
         (Scenario.signup_form "N" "M" "b@x.com" "pw")) Scenario.w0c
    = @Build_world Scenario.codec
        [Scenario.alice;
         {| _id := "uo."; name := Some (JsonString "N");
            mobile := Some (JsonString "M");
            email := Some (JsonString "b@x.com"); password := Some "$2a$pw" |}]
        [DbInsertUser {| nu_name := Some (JsonString "N");
                         nu_mobile := Some (JsonString "M");
                         nu_email := Some (JsonString "b@x.com");
                         nu_password := "$2a$pw" |};
         ConsoleLog "Record inserted for:" (Some (JsonString "b@x.com"));
         ResCookie "token" token true; ResRedirect "/home"] /\
  exists claims req'',
    user req'' = Some claims /\
    c_email claims = Some (JsonString "b@x.com") /\
    log (run (home Scenario.codec Scenario.env0 6000 (Scenario.bearing token))
           Scenario.w0c)
      = [ResSendFile "public/home.html"].
Proof.
  intros token.
  destruct (signup_auto_login String.append Reference.platform
              Scenario.env0 5000 (Scenario.signup_form "N" "M" "b@x.com" "pw")
              Scenario.w0c "$2a$pw"
              [Scenario.alice;
               {| _id := "uo."; name := Some (JsonString "N");
                  mobile := Some (JsonString "M");
                  email := Some (JsonString "b@x.com"); password := Some "$2a$pw" |}]
              "uo." token eq_refl eq_refl eq_refl) as (Hrun & Hgate).
  split; [exact Hrun|].
  destruct (Hgate 6000 (Scenario.bearing token) Scenario.w0c)
    as (claims & req'' & Huser & _ & He & Hf).
  - lia.
  - apply lookup_singleton_eq.
  - exists claims, req''. split; [exact Huser|]. split; [exact He|].
    unfold home, run. rewrite Hf. reflexivity.
Defined.

(** C7 - logout is a client-side instruction.  The route clears the cookie
    and redirects to [/login.html] and changes nothing on the server; the
    gate decides from the token, the process secret and the clock alone, so
    after a logout a request that replays a token issued earlier is still
    forwarded while the token has not expired, is redirected once it has,
    and a request without the cookie is redirected. *)
Theorem logout_then_replay (P : Platform) (C : JwtContract P) (env : Env)
    (t0 : Z) (payload : Payload) (token : string) (req_logout : request)
    (w : world P) :
  issue P env t0 payload = Ok token ->
  let w' := run (logout P req_logout) w in
  w' = logged w [ResClearCookie "token"; ResRedirect "/login.html"] /\
  db w' = db w /\
  (forall t1 req,
     cookies req !! "token" = Some token ->
     t1 / 1000 < t0 / 1000 + 3600 ->
     exists claims,
       identity claims = (p_id payload, p_email payload) /\
       gate_forwards P env t1 req w' claims) /\
  (forall t1 req,
     cookies req !! "token" = Some token ->
     t0 / 1000 + 3600 <= t1 / 1000 ->
     gate_redirects P env t1 req w') /\
  (forall t1 req,
     cookies req !! "token" = None ->
     gate_redirects P env t1 req w').
Proof.
  intros Hi w'. split; [|split; [|split; [|split]]].
  - subst w'. open_route. now rewrite <- app_assoc.
  - reflexivity.
  - intros t1 req Hc Hlt.
    pose proof (issued_fresh P C env t0 t1 payload token Hi Hlt) as Hv.
    eexists. split; [|eapply gate_accepts; eauto using issued_nonempty].
    reflexivity.
  - intros t1 req Hc Hge.
    destruct (issued_expired P C env t0 t1 payload token Hi Hge) as [err He].
    eapply gate_rejects_invalid; eauto.
  - intros t1 req Hc. now apply gate_rejects_absent.
Qed.

(** Alice logs out at some point after her login of clock reading 5000; the
    token she kept still opens [/home] at 7000, and a request without the
    cookie is sent to the login page. *)
Lemma logout_then_replay_witness :
  let w' := run (logout Reference.platform Scenario.anonymous) Scenario.w0 in
  log w' = [ResClearCookie "token"; ResRedirect "/login.html"] /\
  log (run (home Reference.platform Scenario.env0 7000
              (Scenario.bearing Scenario.alice_token)) w')
    = log w' ++ [ResSendFile "public/home.html"] /\
  log (run (home Reference.platform Scenario.env0 7000 Scenario.anonymous) w')
    = log w' ++ [ResRedirect "/login.html"].
Proof.
  intros w'.
  destruct (logout_then_replay Reference.platform ReferenceFacts.contract
              Scenario.env0 5000 {| p_id := "u1"; p_email := Some (JsonString "a@x.com") |}
              Scenario.alice_token Scenario.anonymous Scenario.w0)
    as (Hw & _ & Hreplay & _ & Hnone).
  - vm_compute. reflexivity.
  - fold w' in Hw, Hreplay, Hnone. split; [|split].
    + rewrite Hw. reflexivity.
    + destruct (Hreplay 7000 (Scenario.bearing Scenario.alice_token))
        as (claims & _ & Hf).
      * apply lookup_singleton_eq.
      * vm_compute. reflexivity.
      * unfold home, run. rewrite Hf. reflexivity.
    + unfold home, run. rewrite (Hnone 7000 Scenario.anonymous); reflexivity.
Defined.

(** ** Startup *)

(** [PORT], [MONGO_URL] and whatever else the environment holds, with
    [JWT_SECRET] replaced. *)
Lemma main_secret_irrelevant (P : Platform) (env : Env) (secret : option string) :
  main P {| PORT := PORT env; MONGO_URL := MONGO_URL env; JWT_SECRET := secret |}
  = main P env.
Proof. reflexivity. Qed.

(** C8, as stated, fails: in an environment without [JWT_SECRET] the
    process constructs its client, connects to the database and listens on
    the default port. *)
Lemma startup_without_secret :
  falsy (JWT_SECRET Scenario.env_no_secret) = true /\
  accepting (main Reference.platform Scenario.env_no_secret) = true /\
  main Reference.platform Scenario.env_no_secret
    = @Listening Reference.platform "1337" []
        [ ConsoleLog "Successfully connected to MongoDB. 💾" None;
          ConsoleLog "Server is running on http://localhost:1337 🚀" None ].
Proof. repeat split. Qed.

(** C8, amended - the secret is not looked at during startup.  Loading the
    file and running [startServer] ends the same way whatever [JWT_SECRET]
    is, so a process without the secret begins accepting requests whenever
    the same process with a secret would.  The missing secret shows per
    request instead: a login that passes the password check is answered
    with status 500 and sets no cookie. *)
Theorem startup_ignores_the_secret (P : Platform) (C : JwtContract P) (env : Env) :
  falsy (JWT_SECRET env) = true ->
  (forall secret,
     main P env =
     main P {| PORT := PORT env; MONGO_URL := MONGO_URL env;
               JWT_SECRET := Some secret |}) /\
  (forall now req w u,
     users_findOne P (db w) (body req !! "email") = Ok (Some u) ->
     bcrypt_compare P (body req !! "password") (password u) = Ok true ->
     exists err,
       run (login P env now req) w =
         logged w [DbFindOneUser (body req !! "email");
                   ConsoleError "Error during login:" err;
                   ResStatus 500;
                   ResSend "An error occurred during the login process."]).
Proof.
  intros Hsecret. split.
  - intros secret. symmetry. apply main_secret_irrelevant.
  - intros now req w u Hf Hc.
    destruct (sign_without_secret P C {| p_id := _id u; p_email := email u |}
                (JWT_SECRET env) sign_options now Hsecret) as [err Hi].
    exists err. now apply (login_sign_failure P env now req w u err).
Qed.

(** The process without a secret: it starts exactly like the one with the
    secret [k], and alice's correct password earns her a 500. *)
Lemma startup_ignores_the_secret_witness :
  main Reference.platform Scenario.env_no_secret
    = main Reference.platform Scenario.env0 /\
  accepting (main Reference.platform Scenario.env0) = true /\
  exists err,
    run (login Reference.platform Scenario.env_no_secret 5000
           (Scenario.login_form "a@x.com" "secret")) Scenario.w0
      = logged Scenario.w0
          [DbFindOneUser (Some (JsonString "a@x.com"));
           ConsoleError "Error during login:" err;
           ResStatus 500;
           ResSend "An error occurred during the login process."].
Proof.
  destruct (startup_ignores_the_secret Reference.platform ReferenceFacts.contract
              Scenario.env_no_secret eq_refl) as (Hsame & Hlogin).
  split; [exact (Hsame "k")|]. split; [reflexivity|].
  apply (Hlogin 5000 (Scenario.login_form "a@x.com" "secret") Scenario.w0
           Scenario.alice); reflexivity.
Defined.

(** Startup can fail after a successful connection: a port that
    [app.listen] refuses ends in the [catch], with exit code 1. *)
Lemma bad_port_exits :
  main Reference.platform
    {| PORT := Some "700000"; MONGO_URL := Some "mongodb://localhost";
       JWT_SECRET := Some "k" |}
  = Exited 1 [ ConsoleLog "Successfully connected to MongoDB. 💾" None;
               ConsoleError "Failed to connect to MongoDB" "ERR_SOCKET_BAD_PORT" ].
Proof. reflexivity. Qed.

(** ** The vehicle display route *)

Lemma with_type_param req type : params (with_type req type) !! "type" = Some type.
Proof. apply lookup_insert_eq. Qed.

(** The nine own keys and the values they map to. *)
Lemma vehicleTypeMap_keys :
  dom vehicleTypeMap =
    {[ "excavators"; "bulldozers"; "mini-excavators"; "backhoe-loaders";
       "loaders"; "motor-graders"; "piling-rigs"; "augers"; "tractors" ]}
  /\ size vehicleTypeMap = 9%nat.
Proof. split; vm_compute; reflexivity. Qed.

Lemma vehicleTypeMap_truthy key mapped :
  vehicleTypeMap !! key = Some mapped -> truthy_string mapped = true.
Proof.
  revert key mapped.
  change (map_Forall (fun _ mapped => truthy_string mapped = true) vehicleTypeMap).
  apply (bool_decide_unpack _). vm_compute. exact I.
Qed.

(** X12 - a key of the map: the handler queries the collection with
    exactly the mapped [vehicleType], once, and answers from the result:
    the rendered view, or the logged 500 when the query throws. *)
Lemma vehicles_mapped (P : Platform) req w type mapped :
  vehicleTypeMap !! type = Some mapped ->
  run (vehicles_handler P (with_type req type)) w =
    match vehicles_find P (db w) (JString mapped) with
    | Ok found =>
        logged w [DbFindVehicles (JString mapped); ResRender "excavator" found]
    | Throw err =>
        logged w [DbFindVehicles (JString mapped);
                  ConsoleError ("Error fetching " +:+ mapped +:+ ":") err;
                  ResStatus 500; ResSend "Failed to retrieve data."]
    end.
Proof.
  intros Hm. unfold vehicles_handler. rewrite with_type_param. simpl.
  unfold get_property. rewrite Hm. simpl.
  rewrite (vehicleTypeMap_truthy _ _ Hm). simpl.
  open_route.
  destruct (vehicles_find P (db w) (JString mapped)) as [found|err]; simpl;
    now rewrite <- !app_assoc.
Qed.

(** A key that is neither in the map nor on [Object.prototype]: 404, and
    the collection is not queried. *)
Lemma vehicles_unknown (P : Platform) req w type :
  vehicleTypeMap !! type = None ->
  Object_prototype !! type = None ->
  run (vehicles_handler P (with_type req type)) w =
    logged w [ResStatus 404; ResSend "Vehicle category not found."].
Proof.
  intros Hm Hp. unfold vehicles_handler. rewrite with_type_param. simpl.
  unfold get_property. rewrite Hm, Hp. simpl.
  open_route. now rewrite <- !app_assoc.
Qed.

(** C10 - where the code departs from the claim.  [constructor] is not one
    of the nine keys, yet [vehicleTypeMap["constructor"]] is the inherited
    [Object] function, which is truthy: the handler does not answer 404 but
    queries the collection with that value as the filter.  Shown for the
    handler on any platform, and for the whole route on the reference
    platform with alice's valid token. *)
Theorem vehicles_inherited_key :
  vehicleTypeMap !! "constructor" = None /\
  (forall (P : Platform) req w,
     exists tail,
       log (run (vehicles_handler P (with_type req "constructor")) w)
         = log w ++ DbFindVehicles (JFunction "Object") :: tail /\
       ResStatus 404 ∉ tail) /\
  log (run (vehicles Reference.platform Scenario.env0 6000
              (with_type (Scenario.bearing Scenario.alice_token) "constructor"))
           Scenario.w0)
    = [DbFindVehicles (JFunction "Object"); ResRender "excavator" []].
Proof.
  split; [reflexivity|]. split; [|vm_compute; reflexivity].
  intros P req w. unfold vehicles_handler. rewrite with_type_param. simpl.
  change (get_property vehicleTypeMap "constructor") with (JFunction "Object").
  simpl. open_route.
  destruct (vehicles_find P (db w) (JFunction "Object")) as [found|err]; simpl;
    rewrite <- !app_assoc; simpl; eexists; (split; [reflexivity|]).
  - intros Hin. apply list_elem_of_singleton in Hin. discriminate.
  - intros Hin. repeat (apply elem_of_cons in Hin as [Hin|Hin]; [discriminate|]).
    now apply elem_of_nil in Hin.
Qed.

(** * Further properties of the routes *)

(** Opens a route down to the platform calls and splits on every one of
    them. *)
Ltac open_all :=
  unfold emitted, run, home, explore, vehicles, registerVehicle,
    authenticateToken, jwt_verify_cb, upload_single, login, signup, logout,
    vehicles_handler, registerVehicle_handler, issue;
  unfold res_sendFile, res_redirect, res_cookie, res_clearCookie, res_status,
    res_send, res_render, console_log, console_error, logged;
  unfold try_catch, bind, call, update, emit, ret.

Ltac all_paths :=
  open_all; simpl;
  repeat (case_match; simplify_eq/=);
  repeat (rewrite app_nil_r || rewrite <- app_assoc);
  rewrite ?drop_app_length; simpl.

Ltac each_route :=
  unfold routes;
  repeat first [apply Forall_nil_2 | apply Forall_cons_2]; simpl.

Ltac not_in_list H :=
  repeat (apply elem_of_cons in H as [H|H]; [discriminate|]);
  apply elem_of_nil in H; contradiction.

(** X1 - one response per request.  Whatever the request, the platform and
    the state, every route ends with exactly one call that sends a response
    ([redirect], [send], [sendFile] or [render], or the answer of the
    default error handler when the upload middleware fails), and that call
    is the last thing the route does. *)
Theorem one_response_per_request (P : Platform) (env : Env) (now : Z) :
  Forall (fun r => forall req w,
            exists ev,
              List.filter is_response (emitted (r.2 req) w) = [ev] /\
              last (emitted (r.2 req) w) = Some ev)
         (routes P env now).
Proof.
  each_route; intros req w; all_paths; eexists; split; reflexivity.
Qed.

(** X2 - what is echoed to the client.  Every redirect target, status
    code, body text, served file and view name that the handlers of the
    file produce is one of the literals of the source: nothing of the
    request and no thrown error reaches the client through them.  The one
    answer that is not theirs is that of Express's default error handler,
    which carries the error of the upload middleware; it occurs only on
    [/registerVehicle], for a verified request whose upload fails, and is
    then the whole answer. *)
Theorem responses_from_source (P : Platform) (env : Env) (now : Z) :
  Forall (fun r => forall req w,
            Forall from_source (emitted (r.2 req) w) \/
            (r.1 = ("POST", "/registerVehicle") /\
             exists token claims err,
               cookies req !! "token" = Some token /\
               jwt_verify P token (JWT_SECRET env) now = Ok claims /\
               multer_single P "vehicleImage" (set_user req (Some claims))
                 = Throw err /\
               emitted (r.2 req) w = [ResError err]))
         (routes P env now).
Proof.
  each_route; intros req w; all_paths;
    first
      [ left; repeat first [apply Forall_nil_2 | apply Forall_cons_2]; simpl;
        solve [auto | set_solver]
      | right; split; [reflexivity|]; eexists _, _, _; eauto ].
Qed.

(** X3 - cookies.  The only cookie any route sets is [token], always with
    [httpOnly], and its value is what the [jwt.sign] expression returned
    during that request. *)
Theorem cookies_are_signed_tokens (P : Platform) (env : Env) (now : Z) :
  Forall (fun r => forall req w n v h,
            ResCookie n v h ∈ emitted (r.2 req) w ->
            n = "token" /\ h = true /\
            exists payload, issue P env now payload = Ok v)
         (routes P env now).
Proof.
  each_route; intros req w n v h; all_paths; intros Hin;
    repeat (apply elem_of_cons in Hin as [Hin|Hin]; [simplify_eq|]);
    try (apply elem_of_nil in Hin; contradiction);
    unfold issue; eauto.
Qed.

(** X4 - server errors are logged.  A handler of the file sets status 500
    only after it has written the thrown error to the console. *)
Theorem server_errors_are_logged (P : Platform) (env : Env) (now : Z) :
  Forall (fun r => forall req w,
            ResStatus 500 ∈ emitted (r.2 req) w ->
            exists msg err pre post,
              emitted (r.2 req) w
                = pre ++ ConsoleError msg err :: ResStatus 500 :: post)
         (routes P env now).
Proof.
  each_route; intros req w; all_paths; intros Hin;
    first
      [ not_in_list Hin
      | eexists _, _, [], _; reflexivity
      | eexists _, _, [_], _; reflexivity
      | eexists _, _, [_; _], _; reflexivity ].
Qed.

(** X5 - read-only routes.  Login, logout, the two page routes and the
    vehicle display route never change the database, whatever the request
    and whatever the platform calls return. *)
Theorem read_only_routes (P : Platform) (env : Env) (now : Z) (req : request)
    (w : world P) :
  db (run (login P env now req) w) = db w /\
  db (run (logout P req) w) = db w /\
  db (run (home P env now req) w) = db w /\
  db (run (explore P env now req) w) = db w /\
  db (run (vehicles P env now req) w) = db w.
Proof.
  repeat split; all_paths; reflexivity.
Qed.

(** X6 - no cookie without the password check.  If the login route sets a
    cookie, then the lookup found a user, [bcrypt.compare] of the submitted
    password with that user's stored hash returned true, and the cookie is
    the token signed over that user's [_id] and [email]. *)
Theorem login_cookie_needs_password (P : Platform) (env : Env) (now : Z)
    (req : request) (w : world P) (n v : string) (h : bool) :
  ResCookie n v h ∈ emitted (login P env now req) w ->
  exists u,
    users_findOne P (db w) (body req !! "email") = Ok (Some u) /\
    bcrypt_compare P (body req !! "password") (password u) = Ok true /\
    issue P env now {| p_id := _id u; p_email := email u |} = Ok v.
Proof.
  all_paths; intros Hin;
    repeat (apply elem_of_cons in Hin as [Hin|Hin]; [simplify_eq|]);
    try (apply elem_of_nil in Hin; contradiction).
  match goal with
  | Hneg : negb ?a = false |- _ => destruct a; [|discriminate]
  end.
  unfold issue. eauto.
Qed.

Lemma login_cookie_needs_password_witness :
  exists u,
    users_findOne Reference.platform (db Scenario.w0)
      (Some (JsonString "a@x.com")) = Ok (Some u) /\
    bcrypt_compare Reference.platform (Some (JsonString "secret")) (password u)
      = Ok true /\
    issue Reference.platform Scenario.env0 5000
      {| p_id := _id u; p_email := email u |} = Ok Scenario.alice_token.
Proof.
  apply (login_cookie_needs_password Reference.platform Scenario.env0 5000
           (Scenario.login_form "a@x.com" "secret") Scenario.w0
           "token" Scenario.alice_token true).
  vm_compute. apply list_elem_of_further, list_elem_of_here.
Defined.

(** X7 - how signup fails.  When hashing throws, nothing is inserted; when
    the insert throws, the database is unchanged; when signing throws after
    the insert, the new user stays in the database although the answer is
    the same 500.  In all three cases no cookie is set and the client gets
    the one text [Error inserting record.]. *)
Theorem signup_failures (P : Platform) (env : Env) (now : Z) (req : request)
    (w : world P) :
  let failed err :=
    [ConsoleError "Error inserting user record:" err; ResStatus 500;
     ResSend "Error inserting record."] in
  (forall err,
     bcrypt_hash P (body req !! "password") 10 = Throw err ->
     run (signup P env now req) w = logged w (failed err)) /\
  (forall h err,
     let newUser :=
       {| nu_name := body req !! "name"; nu_mobile := body req !! "mobile";
          nu_email := body req !! "email"; nu_password := h |} in
     bcrypt_hash P (body req !! "password") 10 = Ok h ->
     users_insertOne P (db w) newUser = Throw err ->
     run (signup P env now req) w = logged w (DbInsertUser newUser :: failed err)) /\
  (forall h d' new_id err,
     let newUser :=
       {| nu_name := body req !! "name"; nu_mobile := body req !! "mobile";
          nu_email := body req !! "email"; nu_password := h |} in
     bcrypt_hash P (body req !! "password") 10 = Ok h ->
     users_insertOne P (db w) newUser = Ok (d', new_id) ->
     issue P env now {| p_id := new_id; p_email := body req !! "email" |} = Throw err ->
     run (signup P env now req) w =
       {| db := d';
          log := log w ++
                 DbInsertUser newUser ::
                 ConsoleLog "Record inserted for:" (body req !! "email") ::
                 failed err |}).
Proof.
  intros failed. split; [|split].
  - intros err Hh. open_route. rewrite Hh. simpl.
    now rewrite ?app_nil_r, <- ?app_assoc.
  - intros h err newUser Hh Hins. open_route. rewrite Hh. simpl.
    fold newUser. rewrite Hins. simpl.
    now rewrite ?app_nil_r, <- ?app_assoc.
  - intros h d' new_id err newUser Hh Hins Hi. open_route. rewrite Hh. simpl.
    fold newUser. rewrite Hins. simpl. rewrite Hi. simpl.
    now rewrite ?app_nil_r, <- ?app_assoc.
Qed.

(** A signup without a password (hashing throws), and a complete signup in
    a process without its secret (signing throws after the insert). *)
Lemma signup_failures_witness :
  run (signup Reference.platform Scenario.env0 5000 Scenario.anonymous) Scenario.w0
    = logged Scenario.w0
        [ConsoleError "Error inserting user record:"
           "Illegal arguments: undefined, number";
         ResStatus 500; ResSend "Error inserting record."] /\
  db (run (signup Reference.platform Scenario.env_no_secret 5000
             (Scenario.signup_form "N" "M" "b@x.com" "pw")) Scenario.w0)
    = [Scenario.alice;
       {| _id := "uo."; name := Some (JsonString "N");
          mobile := Some (JsonString "M");
          email := Some (JsonString "b@x.com"); password := Some "$2a$pw" |}] /\
  ResStatus 500 ∈
    log (run (signup Reference.platform Scenario.env_no_secret 5000
                (Scenario.signup_form "N" "M" "b@x.com" "pw")) Scenario.w0).
Proof.
  split.
  - destruct (signup_failures Reference.platform Scenario.env0 5000
                Scenario.anonymous Scenario.w0) as (Hhash & _).
    apply Hhash. reflexivity.
  - destruct (signup_failures Reference.platform Scenario.env_no_secret 5000
                (Scenario.signup_form "N" "M" "b@x.com" "pw") Scenario.w0)
      as (_ & _ & Hsign).
    rewrite (Hsign "$2a$pw"
               [Scenario.alice;
                {| _id := "uo."; name := Some (JsonString "N");
                   mobile := Some (JsonString "M");
                   email := Some (JsonString "b@x.com");
                   password := Some "$2a$pw" |}]
               "uo." "secretOrPrivateKey must have a value"
               eq_refl eq_refl eq_refl).
    split; [reflexivity|]. simpl. set_solver.
Defined.

(** X8 - how login fails with a 500.  When the lookup throws, and when a
    user is found but [bcrypt.compare] throws, the route logs the error and
    answers 500 with the one text; so a request on which the comparison
    throws is answered differently for an existing address (500) than for
    an unknown one (the redirect). *)
Theorem login_failures (P : Platform) (env : Env) (now : Z) (req : request)
    (w : world P) :
  let failed err :=
    [DbFindOneUser (body req !! "email"); ConsoleError "Error during login:" err;
     ResStatus 500; ResSend "An error occurred during the login process."] in
  (forall err,
     users_findOne P (db w) (body req !! "email") = Throw err ->
     run (login P env now req) w = logged w (failed err)) /\
  (forall u err,
     users_findOne P (db w) (body req !! "email") = Ok (Some u) ->
     bcrypt_compare P (body req !! "password") (password u) = Throw err ->
     run (login P env now req) w = logged w (failed err)).
Proof.
  intros failed. split.
  - intros err Hf. open_route. rewrite Hf. simpl.
    now rewrite ?app_nil_r, <- ?app_assoc.
  - intros u err Hf Hc. open_route. rewrite Hf. simpl. rewrite Hc. simpl.
    now rewrite ?app_nil_r, <- ?app_assoc.
Qed.

(** A login form without the password field, for alice and for an address
    nobody has. *)
Lemma login_failures_witness :
  let no_password (e : string) : request :=
    {| cookies := ∅; body := {[ "email" := JsonString e ]}; params := ∅;
       file := None; user := None |} in
  run (login Reference.platform Scenario.env0 5000 (no_password "a@x.com")) Scenario.w0
    = logged Scenario.w0
        [DbFindOneUser (Some (JsonString "a@x.com"));
         ConsoleError "Error during login:" "Illegal arguments";
         ResStatus 500; ResSend "An error occurred during the login process."] /\
  run (login Reference.platform Scenario.env0 5000 (no_password "nobody@x.com"))
      Scenario.w0
    = logged Scenario.w0
        [DbFindOneUser (Some (JsonString "nobody@x.com"));
         ResRedirect "/login.html?error=invalid"].
Proof.
  intros no_password. split.
  - destruct (login_failures Reference.platform Scenario.env0 5000
                (no_password "a@x.com") Scenario.w0) as (_ & Hcompare).
    apply (Hcompare Scenario.alice); reflexivity.
  - reflexivity.
Defined.

(** ** The gate in front of the routes *)

(** X9 - a request without a verified token gets nothing.  When the
    [token] cookie is missing or empty, or [jwt.verify] refuses it, each of
    the four protected routes answers with the redirect to [/login.html]
    and does nothing else: no file is served, no storage call is made, and
    the database stays as it was. *)
Theorem protected_routes_reject (P : Platform) (env : Env) (now : Z)
    (req : request) (w : world P) :
  cookies req !! "token" = None \/
  cookies req !! "token" = Some "" \/
  (exists token err,
     cookies req !! "token" = Some token /\
     jwt_verify P token (JWT_SECRET env) now = Throw err) ->
  let rejected := logged w [ResRedirect "/login.html"] in
  run (home P env now req) w = rejected /\
  run (explore P env now req) w = rejected /\
  run (registerVehicle P env now req) w = rejected /\
  run (vehicles P env now req) w = rejected.
Proof.
  intros Hbad rejected.
  assert (Hr : gate_redirects P env now req w).
  { destruct Hbad as [Hnone|[Hempty|(token & err & Hc & Hv)]].
    - now apply gate_rejects_absent.
    - now apply (gate_rejects_empty P env now req w "").
    - now apply (gate_rejects_invalid P env now req w token err). }
  unfold home, explore, registerVehicle, vehicles, run.
  rewrite !Hr. repeat split.
Qed.

(** The anonymous request and a request with an empty cookie, against
    [/registerVehicle] and [/vehicles/augers]. *)
Lemma protected_routes_reject_witness :
  run (registerVehicle Reference.platform Scenario.env0 6000 Scenario.anonymous)
      Scenario.w0
    = logged Scenario.w0 [ResRedirect "/login.html"] /\
  run (vehicles Reference.platform Scenario.env0 6000
         (with_type (Scenario.bearing "") "augers")) Scenario.w0
    = logged Scenario.w0 [ResRedirect "/login.html"].
Proof.
  split.
  - apply (protected_routes_reject Reference.platform Scenario.env0 6000
             Scenario.anonymous Scenario.w0).
    left. reflexivity.
  - apply (protected_routes_reject Reference.platform Scenario.env0 6000
             (with_type (Scenario.bearing "") "augers") Scenario.w0).
    right. left. reflexivity.
Defined.

(** X10 - the gate reads the token cookie and nothing else of the request.
    Two requests with the same [token] cookie are treated alike by the
    gate, as far as a handler that reads [req.user] can tell: the body, the
    route parameters, an uploaded file and a [user] field already present
    on the request make no difference. *)
Theorem gate_reads_token_only (P : Platform) (env : Env) (now : Z)
    (req1 req2 : request) (k : option Claims -> M (P:=P) unit) (w : world P) :
  cookies req1 !! "token" = cookies req2 !! "token" ->
  authenticateToken P env now req1 (fun r => k (user r)) w =
  authenticateToken P env now req2 (fun r => k (user r)) w.
Proof.
  intros Hsame. unfold authenticateToken, jwt_verify_cb. rewrite Hsame.
  destruct (cookies req2 !! "token") as [token|]; [|reflexivity].
  destruct (truthy_string token); [|reflexivity].
  destruct (jwt_verify P token (JWT_SECRET env) now); reflexivity.
Qed.

(** Alice's token on a bare request and on a request that claims to be
    somebody else already. *)
Lemma gate_reads_token_only_witness :
  let forged : request :=
    {| cookies := {[ "token" := Scenario.alice_token ]};
       body := {[ "ownerId" := JsonString "u2" ]}; params := ∅; file := None;
       user := Some {| id := "u2"; c_email := None; iat := 0; exp := 0 |} |} in
  let owner (u : option Claims) : M (P:=Reference.platform) unit :=
    console_log Reference.platform "owner" (JsonString <$> (id <$> u)) in
  authenticateToken Reference.platform Scenario.env0 6000
      (Scenario.bearing Scenario.alice_token) (fun r => owner (user r)) Scenario.w0
  = authenticateToken Reference.platform Scenario.env0 6000
      forged (fun r => owner (user r)) Scenario.w0.
Proof.
  intros forged owner.
  apply (gate_reads_token_only Reference.platform Scenario.env0 6000
           (Scenario.bearing Scenario.alice_token) forged owner Scenario.w0).
  reflexivity.
Defined.

(** ** Registering a vehicle *)

(** X11 - the owner of a registered vehicle.  For a request whose token
    the gate has verified: if the upload middleware passes an error on, the
    handler is not run, nothing is inserted and the answer is that of the
    default error handler; otherwise the inserted document carries the
    [id] of the verified token as [ownerId], the name, type and number
    among the fields the middleware parsed and the name of the stored
    file, and the client is sent to [/explore] when the insert returns, or
    gets the logged 500 [Registration Failed.], with the database left
    alone, when it throws. *)
Theorem registerVehicle_outcomes (P : Platform) (env : Env) (now : Z)
    (req : request) (w : world P) (token : string) (claims : Claims) :
  cookies req !! "token" = Some token ->
  truthy_string token = true ->
  jwt_verify P token (JWT_SECRET env) now = Ok claims ->
  match multer_single P "vehicleImage" (set_user req (Some claims)) with
  | Throw err =>
      run (registerVehicle P env now req) w = logged w [ResError err]
  | Ok (fields, stored) =>
      let vehicleData :=
        {| v_name := fields !! "name"; vehicleType := fields !! "vehicleType";
           vehicleNumber := fields !! "vehicleNumber"; vehicleImage := stored;
           ownerId := id claims |} in
      match vehicles_insertOne P (db w) vehicleData with
      | Ok (d', _) =>
          run (registerVehicle P env now req) w =
            {| db := d';
               log := log w ++ [DbInsertVehicle vehicleData;
                                ConsoleLog "Vehicle Registered by user:"
                                  (c_email claims);
                                ResRedirect "/explore"] |}
      | Throw err =>
          run (registerVehicle P env now req) w =
            logged w [DbInsertVehicle vehicleData;
                      ConsoleError "Error registering vehicle:" err;
                      ResStatus 500; ResSend "Registration Failed."]
      end
  end.
Proof.
  intros Hc Ht Hv.
  pose proof (gate_accepts P env now req w token claims Hc Ht Hv) as Hf.
  unfold registerVehicle, run. rewrite Hf. unfold upload_single.
  destruct (multer_single P "vehicleImage" (set_user req (Some claims)))
    as [[fields stored]|err]; [|reflexivity].
  open_route.
  match goal with
  | |- context [vehicles_insertOne P (db w) ?d] =>
      destruct (vehicles_insertOne P (db w) d) as [[d' []]|err]
  end; simpl; now rewrite ?app_nil_r, <- ?app_assoc.
Qed.

(** Alice registers an excavator with a picture and writes somebody else's
    id into the form: the document is hers.  The same form with a second
    file under a field the middleware does not expect: nothing is
    inserted. *)
Lemma registerVehicle_outcomes_witness :
  let form (extra : gmap string jsonval) : request :=
    {| cookies := {[ "token" := Scenario.alice_token ]};
       body := {[ "name" := JsonString "Digger";
                  "vehicleType" := JsonString "Excavator";
                  "ownerId" := JsonString "u2";
                  "vehicleImage" := JsonString "vehicleImage-6000.png" ]} ∪ extra;
       params := ∅; file := None; user := None |} in
  log (run (registerVehicle Reference.platform Scenario.env0 6000 (form ∅))
         Scenario.w0)
    = [DbInsertVehicle
         {| v_name := Some (JsonString "Digger");
            vehicleType := Some (JsonString "Excavator");
            vehicleNumber := None;
            vehicleImage := Some "vehicleImage-6000.png";
            ownerId := "u1" |};
       ConsoleLog "Vehicle Registered by user:" (Some (JsonString "a@x.com"));
       ResRedirect "/explore"] /\
  log (run (registerVehicle Reference.platform Scenario.env0 6000
              (form {[ "attachment" := JsonString "plan.pdf" ]})) Scenario.w0)
    = [ResError "MulterError: Unexpected field"].
Proof.
  intros form. split.
  - pose proof (registerVehicle_outcomes Reference.platform Scenario.env0 6000
                  (form ∅) Scenario.w0 Scenario.alice_token
                  {| id := "u1"; c_email := Some (JsonString "a@x.com");
                     iat := 5; exp := 3605 |}
                  eq_refl eq_refl eq_refl) as Hrun.
    vm_compute in Hrun. vm_compute. congruence.
  - pose proof (registerVehicle_outcomes Reference.platform Scenario.env0 6000
                  (form {[ "attachment" := JsonString "plan.pdf" ]}) Scenario.w0
                  Scenario.alice_token
                  {| id := "u1"; c_email := Some (JsonString "a@x.com");
                     iat := 5; exp := 3605 |}
                  eq_refl eq_refl eq_refl) as Hrun.
    vm_compute in Hrun. vm_compute. congruence.
Defined.

(** ** The vehicle display handler, key by key *)

(** One of the nine keys, on the reference platform. *)
Lemma vehicles_mapped_witness :
  run (vehicles_handler Reference.platform (with_type Scenario.anonymous "augers"))
      Scenario.w0
    = logged Scenario.w0 [DbFindVehicles (JString "Auger"); ResRender "excavator" []].
Proof.
  exact (vehicles_mapped Reference.platform Scenario.anonymous Scenario.w0
           "augers" "Auger" eq_refl).
Defined.

Lemma Object_prototype_truthy key inherited :
  Object_prototype !! key = Some inherited -> truthy inherited = true.
Proof.
  revert key inherited.
  change (map_Forall (fun _ inherited => truthy inherited = true) Object_prototype).
  apply (bool_decide_unpack _). vm_compute. exact I.
Qed.

(** [vehicleTypeMap[key]] is falsy exactly for the keys that are neither
    its own nor inherited. *)
Lemma get_property_falsy key :
  truthy (get_property vehicleTypeMap key) = false <->
  vehicleTypeMap !! key = None /\ Object_prototype !! key = None.
Proof.
  unfold get_property.
  destruct (vehicleTypeMap !! key) as [mapped|] eqn:Hm; simpl.
  - rewrite (vehicleTypeMap_truthy _ _ Hm). split; [discriminate|].
    intros [? _]. discriminate.
  - destruct (Object_prototype !! key) as [inherited|] eqn:Hp; simpl.
    + rewrite (Object_prototype_truthy _ _ Hp). split; [discriminate|].
      intros [_ ?]. discriminate.
    + split; auto.
Qed.

Lemma vehicles_handler_emitted (P : Platform) req w type :
  let found := get_property vehicleTypeMap type in
  emitted (vehicles_handler P (with_type req type)) w =
    if truthy found then
      match vehicles_find P (db w) found with
      | Ok data => [DbFindVehicles found; ResRender "excavator" data]
      | Throw err =>
          [DbFindVehicles found;
           ConsoleError ("Error fetching " +:+ text_of found +:+ ":") err;
           ResStatus 500; ResSend "Failed to retrieve data."]
      end
    else [ResStatus 404; ResSend "Vehicle category not found."].
Proof.
  intros found. unfold emitted, vehicles_handler. rewrite with_type_param. simpl.
  fold found. destruct (truthy found); simpl.
  - open_route. destruct (vehicles_find P (db w) found); simpl;
      now rewrite <- ?app_assoc, drop_app_length.
  - open_route. now rewrite <- ?app_assoc, drop_app_length.
Qed.

(** X13 - when the handler answers 404.  The vehicle display handler
    answers 404 exactly when the requested type is neither one of the nine
    keys of [vehicleTypeMap] nor a property name that the object inherits
    ([constructor], [toString], ...); in every other case it queries the
    collection, with [vehicleTypeMap[type]] as the filter, and does not
    answer 404. *)
Theorem vehicles_not_found_iff (P : Platform) (req : request) (w : world P)
    (type : string) :
  let out := emitted (vehicles_handler P (with_type req type)) w in
  (ResStatus 404 ∈ out <->
   vehicleTypeMap !! type = None /\ Object_prototype !! type = None) /\
  (DbFindVehicles (get_property vehicleTypeMap type) ∈ out <->
   ~ (vehicleTypeMap !! type = None /\ Object_prototype !! type = None)) /\
  (forall filter, DbFindVehicles filter ∈ out ->
                  filter = get_property vehicleTypeMap type).
Proof.
  intros out. subst out. rewrite vehicles_handler_emitted.
  rewrite <- get_property_falsy.
  destruct (truthy (get_property vehicleTypeMap type)) eqn:Ht.
  - destruct (vehicles_find P (db w) (get_property vehicleTypeMap type));
      (split; [|split]).
    all: try (split; [intros Hin; not_in_list Hin|discriminate]).
    all: try (split; [discriminate|intros _; apply list_elem_of_here]).
    all: intros filter Hin;
      repeat (apply elem_of_cons in Hin as [Hin|Hin]; [simplify_eq|]);
      try reflexivity; apply elem_of_nil in Hin; contradiction.
  - split; [|split].
    + split; [reflexivity|intros _; apply list_elem_of_here].
    + split; [intros Hin; not_in_list Hin|intros Hn; now destruct Hn].
    + intros filter Hin. not_in_list Hin.
Qed.

(** ** Names of uploaded files *)

Lemma dotless_app (a b : string) :
  dotless a = true -> dotless b = true -> dotless (a +:+ b) = true.
Proof.
  induction a as [|x a IH]; [auto|].
  rewrite append_cons. simpl. intros [Hx Ha]%andb_prop Hb.
  rewrite Hx. simpl. auto.
Qed.

Lemma pretty_N_char_dotless (x : N) :
  negb (Ascii.eqb (pretty_N_char x) "."%char) = true.
Proof. unfold pretty_N_char. repeat case_match; reflexivity. Qed.

(** The decimal digits that [pretty_N_go] puts in front of its
    accumulator contain no dot. *)
Lemma pretty_N_go_dotless (x : N) (s : string) :
  exists d, pretty_N_go x s = d +:+ s /\ dotless d = true.
Proof.
  revert s. induction (N.lt_wf_0 x) as [x _ IH]. intros s.
  destruct (decide (x = 0)%N) as [->|Hx].
  - exists "". split; reflexivity.
  - rewrite pretty_N_go_step by lia.
    destruct (IH (x `div` 10)%N) with (s := String (pretty_N_char (x `mod` 10)) s)
      as (d & Hd & Hdot).
    { apply N.div_lt; lia. }
    exists (d +:+ String (pretty_N_char (x `mod` 10)) ""). split.
    + rewrite Hd, append_assoc. reflexivity.
    + apply dotless_app; [exact Hdot|]. simpl.
      now rewrite pretty_N_char_dotless.
Qed.

Lemma pretty_Z_dotless (z : Z) : 0 <= z -> dotless (pretty z) = true.
Proof.
  destruct z as [|p|p]; [reflexivity| |lia]. intros _.
  unfold pretty, pretty_Z, pretty, pretty_positive, pretty, pretty_N.
  destruct (decide (N.pos p = 0%N)); [reflexivity|].
  destruct (pretty_N_go_dotless (N.pos p) "") as (d & -> & Hd).
  now apply dotless_app.
Qed.

(** Digits followed by an extension split in one way only. *)
Lemma split_at_extension (d1 d2 e1 e2 : string) :
  dotless d1 = true -> dotless d2 = true ->
  extension e1 -> extension e2 ->
  d1 +:+ e1 = d2 +:+ e2 -> d1 = d2 /\ e1 = e2.
Proof.
  revert d2. induction d1 as [|a d1 IH]; intros [|b d2] H1 H2 He1 He2 Heq.
  - auto.
  - exfalso. change ("" +:+ e1) with e1 in Heq. rewrite append_cons in Heq.
    destruct He1 as [->|[r ->]]; [discriminate|].
    injection Heq as <- _. simpl in H2. discriminate.
  - exfalso. change ("" +:+ e2) with e2 in Heq. rewrite append_cons in Heq.
    destruct He2 as [->|[r ->]]; [discriminate|].
    injection Heq as -> _. simpl in H1. discriminate.
  - rewrite !append_cons in Heq. injection Heq as -> Heq.
    simpl in H1, H2.
    apply andb_prop in H1 as [_ H1]. apply andb_prop in H2 as [_ H2].
    destruct (IH d2 H1 H2 He1 He2 Heq) as [-> ->]. auto.
Qed.

Lemma last_dot_extension (s e : string) :
  ReferenceUpload.last_dot s = Some e -> exists r, e = String "."%char r.
Proof.
  revert e. induction s as [|a s IH]; intros e; simpl; [discriminate|].
  destruct (ReferenceUpload.last_dot s) as [e'|].
  - intros [= <-]. now apply IH.
  - destruct (Ascii.eqb_spec a "."%char) as [->|]; [|discriminate].
    intros [= <-]. eauto.
Qed.

Lemma reference_extname_extension (p : string) :
  extension (ReferenceUpload.extname p).
Proof.
  destruct p as [|a rest]; [now left|]. simpl.
  destruct (ReferenceUpload.last_dot rest) as [e|] eqn:He; [|now left].
  right. now apply (last_dot_extension rest).
Qed.

(** X14 - when two uploads get the same name.  Provided [path.extname]
    returns either nothing or an extension that starts with its dot, two
    files uploaded under the same field get the same stored name only if
    they arrive at the same clock reading and have the same extension;
    uploads at different milliseconds never overwrite each other. *)
Theorem filename_collision (extname : string -> string) (t1 t2 : Z)
    (req1 req2 : request) (f1 f2 : upload_file) :
  (forall p, extension (extname p)) ->
  0 <= t1 -> 0 <= t2 ->
  fieldname f1 = fieldname f2 ->
  filename extname t1 req1 f1 = filename extname t2 req2 f2 ->
  t1 = t2 /\ extname (originalname f1) = extname (originalname f2).
Proof.
  intros Hext H1 H2 Hfield Heq. unfold filename in Heq.
  rewrite Hfield, !append_assoc in Heq.
  apply (inj (String.app _)) in Heq. apply (inj (String.app _)) in Heq.
  apply split_at_extension in Heq as [Hnum Hsame];
    auto using pretty_Z_dotless.
  split; [|exact Hsame]. now apply (inj pretty).
Qed.

(** Two pictures with different names and the same extension, uploaded in
    the same millisecond: both are stored as [vehicleImage-6000.png]. *)
Lemma filename_collision_witness :
  filename ReferenceUpload.extname 6000 Scenario.anonymous
    {| fieldname := "vehicleImage"; originalname := "front.png" |} =
  filename ReferenceUpload.extname 6000 Scenario.anonymous
    {| fieldname := "vehicleImage"; originalname := "side.view.png" |} /\
  6000 = 6000 /\
  ReferenceUpload.extname "front.png" = ReferenceUpload.extname "side.view.png".
Proof.
  split; [vm_compute; reflexivity|].
  apply (filename_collision ReferenceUpload.extname 6000 6000
           Scenario.anonymous Scenario.anonymous
           {| fieldname := "vehicleImage"; originalname := "front.png" |}
           {| fieldname := "vehicleImage"; originalname := "side.view.png" |}).
  - apply reference_extname_extension.
  - lia.
  - lia.
  - reflexivity.
  - vm_compute. reflexivity.
Defined.

(** ** From login to a registered vehicle *)

(** X15 - a registration belongs to whoever logged in.  Under the
    jsonwebtoken contract, for a token that login or signup signed for a
    user at [t0]: sent with a registration while it has not expired, and
    provided the upload middleware passes the request on, the route inserts
    exactly one document, whose [ownerId] is that user's id, whatever
    fields the middleware parsed; if the upload fails, the default error
    answer is all that happens; once the token has expired, the redirect to
    the login page is all that happens. *)
Theorem registration_belongs_to_login (P : Platform) (C : JwtContract P)
    (env : Env) (t0 t1 : Z) (payload : Payload) (token : string)
    (req : request) (w : world P) :
  issue P env t0 payload = Ok token ->
  cookies req !! "token" = Some token ->
  let out := emitted (registerVehicle P env t1 req) w in
  let verified :=
    set_user req (Some {| id := p_id payload; c_email := p_email payload;
                          iat := t0 / 1000; exp := t0 / 1000 + 3600 |}) in
  (t1 / 1000 < t0 / 1000 + 3600 ->
   match multer_single P "vehicleImage" verified with
   | Ok (fields, stored) =>
       exists rest,
         out = DbInsertVehicle
                 {| v_name := fields !! "name";
                    vehicleType := fields !! "vehicleType";
                    vehicleNumber := fields !! "vehicleNumber";
                    vehicleImage := stored;
                    ownerId := p_id payload |} :: rest /\
         forall doc, DbInsertVehicle doc ∉ rest
   | Throw err => out = [ResError err]
   end) /\
  (t0 / 1000 + 3600 <= t1 / 1000 -> out = [ResRedirect "/login.html"]).
Proof.
  intros Hi Hc out verified. subst out. split.
  - intros Hlt.
    pose proof (issued_fresh P C env t0 t1 payload token Hi Hlt) as Hv.
    pose proof (gate_accepts P env t1 req w token _ Hc
                  (issued_nonempty P C env t0 payload token Hi) Hv) as Hf.
    unfold emitted, registerVehicle, run. rewrite Hf. unfold upload_single.
    fold verified.
    destruct (multer_single P "vehicleImage" verified) as [[fields stored]|err].
    + open_route.
      match goal with
      | |- context [vehicles_insertOne P (db w) ?d] =>
          destruct (vehicles_insertOne P (db w) d) as [[d' []]|err]
      end; simpl; rewrite ?app_nil_r, <- ?app_assoc, drop_app_length;
        eexists; (split; [reflexivity|]); intros doc Hin; not_in_list Hin.
    + unfold emit. simpl. now rewrite drop_app_length.
  - intros Hge.
    destruct (issued_expired P C env t0 t1 payload token Hi Hge) as [err He].
    pose proof (gate_rejects_invalid P env t1 req w token err Hc He) as Hr.
    unfold emitted, registerVehicle, run. rewrite Hr. open_route.
    now rewrite drop_app_length.
Qed.

(** Alice, logged in at 5000, registers at 6000 with a form that names
    another owner; the same form an hour and a bit later. *)
Lemma registration_belongs_to_login_witness :
  let form : request :=
    {| cookies := {[ "token" := Scenario.alice_token ]};
       body := {[ "name" := JsonString "Digger"; "ownerId" := JsonString "u2" ]};
       params := ∅; file := None; user := None |} in
  (exists rest,
     emitted (registerVehicle Reference.platform Scenario.env0 6000 form) Scenario.w0
       = DbInsertVehicle
           {| v_name := Some (JsonString "Digger"); vehicleType := None;
              vehicleNumber := None; vehicleImage := None; ownerId := "u1" |}
         :: rest /\
     forall doc, DbInsertVehicle doc ∉ rest) /\
  emitted (registerVehicle Reference.platform Scenario.env0 3605000 form) Scenario.w0
    = [ResRedirect "/login.html"].
Proof.
  intros form. split.
  - destruct (registration_belongs_to_login Reference.platform
                ReferenceFacts.contract Scenario.env0 5000 6000
                {| p_id := "u1"; p_email := Some (JsonString "a@x.com") |}
                Scenario.alice_token form Scenario.w0 eq_refl eq_refl)
      as (Hfresh & _).
    assert (Hlt : 6000 / 1000 < 5000 / 1000 + 3600) by (vm_compute; reflexivity).
    specialize (Hfresh Hlt). vm_compute in Hfresh.
    destruct Hfresh as (rest & Hout & Hrest).
    exists rest. split; [|exact Hrest]. vm_compute. exact Hout.
  - destruct (registration_belongs_to_login Reference.platform
                ReferenceFacts.contract Scenario.env0 5000 3605000
                {| p_id := "u1"; p_email := Some (JsonString "a@x.com") |}
                Scenario.alice_token form Scenario.w0 eq_refl eq_refl)
      as (_ & Hlate).
    apply Hlate. vm_compute. discriminate.
Defined.
